(** * VeaxFlow agent: pool state model and parameter-adjustment engine

    A shallow embedding of [src/veaxflow_agent/main.py]: the class
    [LiquidityPool] and the function [ai_agent], with Python's [float]
    modelled as IEEE-754 binary64 through the Standard Library's executable
    specification [SpecFloat], Python's [int] as [Z], and Python exceptions
    as an error value threaded next to the mutated pool object. *)

From Stdlib Require Import ZArith Bool List Lia Ascii String.
From Stdlib Require Import Floats.SpecFloat.
From stdpp Require Import base option gmap strings.

Import ListNotations.
Local Open Scope Z_scope.

(** ** Python floats: IEEE-754 binary64 *)

Module F64.

Definition prec : Z := 53.
Definition emax : Z := 1024.

Definition float : Type := spec_float.

Definition add : float -> float -> float := SFadd prec emax.
Definition sub : float -> float -> float := SFsub prec emax.
Definition mul : float -> float -> float := SFmul prec emax.
Definition div : float -> float -> float := SFdiv prec emax.

(** Python's [<], [<=], [>], [>=] and [==] on floats: every comparison with
    a NaN is false. *)
Definition ltb (x y : float) : bool := SFltb x y.
Definition leb (x y : float) : bool := SFleb x y.
Definition gtb (x y : float) : bool := SFltb y x.
Definition geb (x y : float) : bool := SFleb y x.
Definition eqb (x y : float) : bool := SFeqb x y.

(** The double nearest to the integer [z], ties to even; an integer beyond
    the range of the doubles rounds to an infinity. *)
Definition of_Z (z : Z) : float := binary_normalize prec emax z 0 false.

(** The double nearest to [m / 10 ^ k]: the value of a decimal literal with
    digits [m] and [k] digits after the point.  [m] and [10 ^ k] are below
    [2 ^ 53] at every use, so both are exact and the quotient is rounded
    once, as the Python parser rounds the literal. *)
Definition decimal (m : Z) (k : Z) : float := div (of_Z m) (of_Z (10 ^ k)).

Definition is_finite (x : float) : bool :=
  match x with
  | S754_zero _ | S754_finite _ _ _ => true
  | _ => false
  end.

End F64.

Abbreviation float := F64.float.

(** The decimal literals of the program, each the double nearest to its
    decimal value. *)
Definition f_0_05 : float := Eval vm_compute in F64.decimal 5 2.
Definition f_0_1 : float := Eval vm_compute in F64.decimal 1 1.
Definition f_1_0 : float := Eval vm_compute in F64.decimal 1 0.
Definition f_1_1 : float := Eval vm_compute in F64.decimal 11 1.
Definition f_0_95 : float := Eval vm_compute in F64.decimal 95 2.
Definition f_1_05 : float := Eval vm_compute in F64.decimal 105 2.
Definition f_0_02 : float := Eval vm_compute in F64.decimal 2 2.
Definition f_0_3 : float := Eval vm_compute in F64.decimal 3 1.

(** The integer constants that meet a float in an arithmetic operation or a
    comparison; each is converted exactly. *)
Definition f_100 : float := Eval vm_compute in F64.of_Z 100.
Definition f_700 : float := Eval vm_compute in F64.of_Z 700.
Definition f_5_000_000 : float := Eval vm_compute in F64.of_Z 5000000.

(** ** Python values, exceptions and builtins *)

Inductive exn : Set := KeyError | TypeError | ValueError | OverflowError.

Inductive result (A : Type) : Type :=
| Ok (a : A)
| Raise (e : exn).
Arguments Ok {A} a.
Arguments Raise {A} e.

Definition result_bind {A B : Type} (r : result A) (k : A -> result B) : result B :=
  match r with
  | Ok a => k a
  | Raise e => Raise e
  end.

Definition is_Ok {A : Type} (r : result A) : bool :=
  match r with Ok _ => true | Raise _ => false end.

(** [max(a, b)] keeps [a] unless [b > a]; [min(a, b)] keeps [a] unless
    [b < a].  With a NaN as [b] both return [a]. *)
Definition py_max (a b : float) : float := if F64.gtb b a then b else a.
Definition py_min (a b : float) : float := if F64.ltb b a then b else a.

(** [int(x)] of a float: truncation toward zero; [ValueError] on a NaN,
    [OverflowError] on an infinity. *)
Definition int_of_float (x : float) : result Z :=
  match x with
  | S754_nan => Raise ValueError
  | S754_infinity _ => Raise OverflowError
  | S754_zero _ => Ok 0
  | S754_finite s m e =>
      Ok (cond_Zopp s (if 0 <=? e then Z.pos m * 2 ^ e else Z.pos m / 2 ^ (- e)))
  end.

(** [float(n)] of an int, as the mixed operators [n * x] apply it to their
    int operand: the nearest double, [OverflowError] when [n] is too large. *)
Definition float_of_int (n : Z) : result float :=
  let x := F64.of_Z n in
  if F64.is_finite x then Ok x else Raise OverflowError.

(** [n * x] for an int [n] and a float [x]. *)
Definition int_mul_float (n : Z) (x : float) : result float :=
  result_bind (float_of_int n) (fun y => Ok (F64.mul y x)).

(** [round(x)] of a float, to the nearest integer, ties to even. *)
Definition py_round (x : float) : result Z :=
  match x with
  | S754_nan => Raise ValueError
  | S754_infinity _ => Raise OverflowError
  | S754_zero _ => Ok 0
  | S754_finite s m e =>
      Ok (cond_Zopp s
            (if 0 <=? e then Z.pos m * 2 ^ e
             else
               let d := 2 ^ (- e) in
               let q := Z.pos m / d in
               let r := Z.pos m mod d in
               match 2 * r ?= d with
               | Lt => q
               | Gt => q + 1
               | Eq => if Z.even q then q else q + 1
               end))
  end.

(** The values a pool snapshot holds: strings, and for [liquidities] a list
    of strings. *)
Inductive pyval : Type :=
| PyStr (s : string)
| PyList (l : list string).

(** What the program takes from the Python runtime and from pandas without
    defining it: parsing a string with [int()] and [float()], [sum()] over
    floats, the text an f-string gives for a list, and [Series.mean()].
    The development is parametric in them. *)
Class PyRuntime : Type := {
  int_of_str : string -> result Z;
  float_of_str : string -> result float;
  float_sum : list float -> float;
  str_of_list : list string -> string;
  series_mean : list float -> float
}.

(** ** The pool state *)

Record LiquidityPool : Type := {
  token_a : pyval;
  token_b : pyval;
  reserve_a : Z;
  reserve_b : Z;
  spot_price : float;
  fee_tier : float;
  price_range : float * float;
  total_liquidity : float;
  pair_id : string
}.

Definition set_reserve_a (v : Z) (p : LiquidityPool) : LiquidityPool :=
  {| token_a := token_a p; token_b := token_b p;
     reserve_a := v; reserve_b := reserve_b p;
     spot_price := spot_price p; fee_tier := fee_tier p;
     price_range := price_range p; total_liquidity := total_liquidity p;
     pair_id := pair_id p |}.

Definition set_reserve_b (v : Z) (p : LiquidityPool) : LiquidityPool :=
  {| token_a := token_a p; token_b := token_b p;
     reserve_a := reserve_a p; reserve_b := v;
     spot_price := spot_price p; fee_tier := fee_tier p;
     price_range := price_range p; total_liquidity := total_liquidity p;
     pair_id := pair_id p |}.

Definition set_fee_tier (v : float) (p : LiquidityPool) : LiquidityPool :=
  {| token_a := token_a p; token_b := token_b p;
     reserve_a := reserve_a p; reserve_b := reserve_b p;
     spot_price := spot_price p; fee_tier := v;
     price_range := price_range p; total_liquidity := total_liquidity p;
     pair_id := pair_id p |}.

Definition set_price_range (v : float * float) (p : LiquidityPool) : LiquidityPool :=
  {| token_a := token_a p; token_b := token_b p;
     reserve_a := reserve_a p; reserve_b := reserve_b p;
     spot_price := spot_price p; fee_tier := fee_tier p;
     price_range := v; total_liquidity := total_liquidity p;
     pair_id := pair_id p |}.

(** A [pandas.DataFrame] as far as [ai_agent] looks at it: the number of
    rows and the columns by label.  The columns hold floats, as those of
    the frames [fetch_volume_data] builds do, so that [mean()] returns a
    float; [AnyFrame] below admits columns of strings as well. *)
Record DataFrame : Type := {
  df_rows : nat;
  df_columns : gmap string (list float)
}.

(** [df.empty]: one of the two axes has length 0. *)
Definition df_empty (df : DataFrame) : bool :=
  Nat.eqb (df_rows df) 0 || bool_decide (df_columns df = ∅).

(** [label in df]: [label] names a column. *)
Definition df_contains (label : string) (df : DataFrame) : bool :=
  bool_decide (is_Some (df_columns df !! label)).

(** [df[label]], used only where [label in df] holds. *)
Definition df_getitem (df : DataFrame) (label : string) : list float :=
  default [] (df_columns df !! label).

(** What [ai_agent] prints, line by line, each with the values it
    formats. *)
Inductive printed : Type :=
| HighVolumeLine (avg_volume new_fee : float)
| SlippageLine (reserve_a reserve_b : Z)
| LowVolumeLine (avg_volume new_fee : float)
| WideningLine (new_range : float * float)
| NarrowingLine (new_range : float * float)
| YieldLine (yield_estimate : float).

(** ** Commands on the pool object

    A command runs on the pool object and the console, changes both in
    place, and either returns a value or raises; what was changed before a
    raise stays changed. *)

Record world : Type := {
  the_pool : LiquidityPool;
  console : list printed
}.

Definition cmd (A : Type) : Type := world -> world * result A.

Definition cmd_ret {A : Type} (a : A) : cmd A := fun w => (w, Ok a).

Definition cmd_bind {A B : Type} (c : cmd A) (k : A -> cmd B) : cmd B :=
  fun w =>
    match c w with
    | (w', Ok a) => k a w'
    | (w', Raise e) => (w', Raise e)
    end.

Definition lift {A : Type} (r : result A) : cmd A := fun w => (w, r).

Definition attr {A : Type} (field : LiquidityPool -> A) : cmd A :=
  fun w => (w, Ok (field (the_pool w))).

Definition assign (update : LiquidityPool -> LiquidityPool) : cmd unit :=
  fun w => ({| the_pool := update (the_pool w); console := console w |}, Ok tt).

Definition print (line : printed) : cmd unit :=
  fun w => ({| the_pool := the_pool w; console := console w ++ [line] |}, Ok tt).

#[global] Instance cmd_mret : MRet cmd := @cmd_ret.
#[global] Instance cmd_mbind : MBind cmd := fun A B k c => cmd_bind c k.

#[global] Instance result_mret : MRet result := @Ok.
#[global] Instance result_mbind : MBind result := fun A B k r => result_bind r k.

Section Program.

Context `{!PyRuntime}.

(** [d[key]] on a dict. *)
Definition getitem (d : gmap string pyval) (key : string) : result pyval :=
  match d !! key with
  | Some v => Ok v
  | None => Raise KeyError
  end.

(** [int(v)] and [float(v)] on a snapshot value. *)
Definition py_int (v : pyval) : result Z :=
  match v with
  | PyStr s => int_of_str s
  | PyList _ => Raise TypeError
  end.

Definition py_float (v : pyval) : result float :=
  match v with
  | PyStr s => float_of_str s
  | PyList _ => Raise TypeError
  end.

(** The items [for liq in v] goes through: the elements of a list, the
    characters of a string. *)
Definition py_iter (v : pyval) : list string :=
  match v with
  | PyList l => l
  | PyStr s => map (fun c => String c EmptyString) (list_ascii_of_string s)
  end.

(** The text an f-string substitutes for [v]. *)
Definition py_format (v : pyval) : string :=
  match v with
  | PyStr s => s
  | PyList l => str_of_list l
  end.

(** [float(liq) for liq in items], evaluated from left to right up to the
    first item that raises. *)
Fixpoint floats_of (items : list string) : result (list float) :=
  match items with
  | [] => Ok []
  | liq :: rest =>
      x ← float_of_str liq;
      xs ← floats_of rest;
      mret (x :: xs)
  end.

(** [LiquidityPool.__init__] *)
Definition __init__ (pool_data : gmap string pyval) : result LiquidityPool :=
  token_a ← getitem pool_data "token_a";
  token_b ← getitem pool_data "token_b";
  reserve_a ← getitem pool_data "reserve_a" ≫= py_int;
  reserve_b ← getitem pool_data "reserve_b" ≫= py_int;
  spot_price ← getitem pool_data "spot_price" ≫= py_float;
  let fee_tier := f_0_3 in
  let price_range := (F64.mul spot_price f_0_95, F64.mul spot_price f_1_05) in
  liquidities ← getitem pool_data "liquidities";
  liqs ← floats_of (List.filter (fun liq => negb (String.eqb liq "0")) (py_iter liquidities));
  let total_liquidity := float_sum liqs in
  let pair_id := (py_format token_a ++ "-" ++ py_format token_b)%string in
  mret {| token_a := token_a; token_b := token_b;
          reserve_a := reserve_a; reserve_b := reserve_b;
          spot_price := spot_price; fee_tier := fee_tier;
          price_range := price_range; total_liquidity := total_liquidity;
          pair_id := pair_id |}.

(** The value [ai_agent] binds to [avg_volume]. *)
Definition avg_volume_of (volume_data : DataFrame) : float :=
  if negb (df_empty volume_data) && df_contains "volume" volume_data
  then series_mean (df_getitem volume_data "volume")
  else f_5_000_000.

Definition threshold : float := f_700.

(** The expression [int(r * 1.1)] of lines 93 and 94: the int [r] is
    converted to a float, multiplied, and the product truncated. *)
Definition boosted (r : Z) : result Z :=
  int_mul_float r f_1_1 ≫= int_of_float.

(** [ai_agent(pool, volume_data)], with [pool] the pool object of the
    world the command runs in. *)
Definition ai_agent (volume_data : DataFrame) : cmd (float * (float * float)) :=
  let avg_volume := avg_volume_of volume_data in
  new_fee ←
    (if F64.geb avg_volume threshold then
       fee ← attr fee_tier;
       let new_fee := py_max f_0_05 (F64.sub fee f_0_1) in
       print (HighVolumeLine avg_volume new_fee);;
       ra ← attr reserve_a;
       ra' ← lift (boosted ra);
       assign (set_reserve_a ra');;
       rb ← attr reserve_b;
       rb' ← lift (boosted rb);
       assign (set_reserve_b rb');;
       ra ← attr reserve_a;
       rb ← attr reserve_b;
       print (SlippageLine ra rb);;
       mret new_fee
     else
       fee ← attr fee_tier;
       let new_fee := py_min f_1_0 (F64.add fee f_0_1) in
       print (LowVolumeLine avg_volume new_fee);;
       mret new_fee);
  '(lower, upper) ← attr price_range;
  new_range ←
    (if F64.geb avg_volume threshold then
       let new_range := (F64.mul lower f_0_95, F64.mul upper f_1_05) in
       print (WideningLine new_range);;
       mret new_range
     else
       let new_range := (F64.add lower f_0_02, F64.sub upper f_0_02) in
       print (NarrowingLine new_range);;
       mret new_range);
  let yield_estimate := F64.mul (F64.div new_fee f_100) avg_volume in
  print (YieldLine yield_estimate);;
  assign (set_fee_tier new_fee);;
  assign (set_price_range new_range);;
  mret (new_fee, new_range).

(** One call [ai_agent(pool, volume_data)] from a pool object and an empty
    console: the pool object after the call, what was printed, and what
    the call returned or raised. *)
Definition call (pool : LiquidityPool) (volume_data : DataFrame)
  : world * result (float * (float * float)) :=
  ai_agent volume_data {| the_pool := pool; console := [] |}.

Definition pool_after (pool : LiquidityPool) (volume_data : DataFrame) : LiquidityPool :=
  the_pool (fst (call pool volume_data)).

Definition printed_by (pool : LiquidityPool) (volume_data : DataFrame) : list printed :=
  console (fst (call pool volume_data)).

Definition outcome (pool : LiquidityPool) (volume_data : DataFrame)
  : result (float * (float * float)) :=
  snd (call pool volume_data).

(** The pool object after each of a series of calls, one per volume
    frame, as the loop of [main] makes them; a call that raises ends the
    series. *)
Fixpoint pool_trace (pool : LiquidityPool) (frames : list DataFrame) : list LiquidityPool :=
  match frames with
  | [] => []
  | volume_data :: rest =>
      let pool' := pool_after pool volume_data in
      pool' :: (if is_Ok (outcome pool volume_data) then pool_trace pool' rest else [])
  end.

End Program.

(** ** A reference runtime

    The builtins on plain inputs, to run the program on concrete snapshots
    and frames: signed decimal integers; signed decimal floats with an
    optional fraction and exponent, [inf] and [nan]; sums and means from
    left to right. *)

Module Reference.

Definition digit (c : ascii) : option Z :=
  let n := Z.of_N (N_of_ascii c) in
  if (48 <=? n) && (n <=? 57) then Some (n - 48) else None.

(** The leading run of digits of [cs]: its value on top of [acc], how many
    digits it has, and what follows it. *)
Fixpoint digits (cs : list ascii) (acc : Z) (count : Z) : Z * Z * list ascii :=
  match cs with
  | [] => (acc, count, [])
  | c :: rest =>
      match digit c with
      | Some d => digits rest (10 * acc + d) (count + 1)
      | None => (acc, count, cs)
      end
  end.

Definition sign (cs : list ascii) : bool * list ascii :=
  match cs with
  | "-"%char :: rest => (true, rest)
  | "+"%char :: rest => (false, rest)
  | _ => (false, cs)
  end.

Definition parse_int (s : string) : result Z :=
  let '(neg, cs) := sign (list_ascii_of_string s) in
  match digits cs 0 0 with
  | (n, count, []) =>
      if 0 <? count then Ok (cond_Zopp neg n) else Raise ValueError
  | _ => Raise ValueError
  end.

(** The double nearest to [m * 10 ^ e], for [0 < m]. *)
Definition scale10 (neg : bool) (m : positive) (e : Z) : float :=
  if 0 <=? e
  then binary_normalize F64.prec F64.emax (cond_Zopp neg (Z.pos m * 10 ^ e)) 0 neg
  else F64.div (S754_finite neg m 0) (S754_finite false (Z.to_pos (10 ^ (- e))) 0).

Definition exponent (cs : list ascii) : option Z :=
  match cs with
  | [] => Some 0
  | c :: rest =>
      if Ascii.eqb c "e" || Ascii.eqb c "E" then
        let '(neg, ds) := sign rest in
        match digits ds 0 0 with
        | (n, count, []) => if 0 <? count then Some (cond_Zopp neg n) else None
        | _ => None
        end
      else None
  end.

Definition parse_float (s : string) : result float :=
  let '(neg, cs) := sign (list_ascii_of_string s) in
  if String.eqb (string_of_list_ascii cs) "inf" then Ok (S754_infinity neg)
  else if String.eqb (string_of_list_ascii cs) "nan" then Ok S754_nan
  else
    let '(whole, n1, after) := digits cs 0 0 in
    let '(mant, n2, after) :=
      match after with
      | "."%char :: frac => digits frac whole 0
      | _ => (whole, 0, after)
      end in
    if 0 <? n1 + n2 then
      match exponent after with
      | Some e =>
          match mant with
          | Z.pos m => Ok (scale10 neg m (e - n2))
          | _ => Ok (S754_zero neg)
          end
      | None => Raise ValueError
      end
    else Raise ValueError.

Definition sum_left (xs : list float) : float :=
  fold_left F64.add xs (S754_zero false).

Definition mean_left (xs : list float) : float :=
  F64.div (sum_left xs) (F64.of_Z (Z.of_nat (length xs))).

Definition repr_list (l : list string) : string :=
  ("[" ++ String.concat ", " (map (fun s => "'" ++ s ++ "'") l) ++ "]")%string.

#[export] Instance runtime : PyRuntime := {|
  int_of_str := parse_int;
  float_of_str := parse_float;
  float_sum := sum_left;
  str_of_list := repr_list;
  series_mean := mean_left
|}.

End Reference.

(** ** Sample pools and frames *)

Module Samples.

(** The snapshot of a pool at spot price 5.0. *)
Definition snapshot : gmap string pyval :=
  <["token_a" := PyStr "wrap.near"]>
    (<["token_b" := PyStr "usdt.tether-token.near"]>
    (<["reserve_a" := PyStr "1000000000000000000000000000000"]>
    (<["reserve_b" := PyStr "5000000000000"]>
    (<["spot_price" := PyStr "5.0"]>
    (<["liquidities" := PyList ["0"; "12.5"; "7"]]> ∅))))).

(** A pool object with the given reserves, fee and range. *)
Definition pool_with (ra rb : Z) (fee lower upper : float) : LiquidityPool :=
  {| token_a := PyStr "wrap.near"; token_b := PyStr "usdt.tether-token.near";
     reserve_a := ra; reserve_b := rb;
     spot_price := F64.of_Z 5; fee_tier := fee;
     price_range := (lower, upper);
     total_liquidity := S754_zero false;
     pair_id := "wrap.near-usdt.tether-token.near" |}.

(** The pool [__init__] builds from [snapshot] under the reference
    runtime. *)
Definition fresh : LiquidityPool :=
  Eval vm_compute in
    match __init__ (H := Reference.runtime) snapshot with
    | Ok pool => pool
    | Raise _ => pool_with 0 0 S754_nan S754_nan S754_nan
    end.

(** A frame with one row and the column [volume]. *)
Definition frame (v : float) : DataFrame :=
  {| df_rows := 1; df_columns := {[ "volume" := [v] ]} |}.

(** The frame [pd.DataFrame()]: no rows, no columns. *)
Definition no_frame : DataFrame := {| df_rows := 0; df_columns := ∅ |}.

(** A frame with one row and no column [volume]. *)
Definition other_frame : DataFrame :=
  {| df_rows := 1; df_columns := {[ "value" := [F64.of_Z 1000] ]} |}.

Definition busy : DataFrame := frame (F64.of_Z 1000).
Definition quiet : DataFrame := frame (F64.of_Z 300).

End Samples.

(** ** Derived notions *)

(** The fee, the range and the yield estimate the two branches of
    [ai_agent] compute. *)
Definition fee_down (pool : LiquidityPool) : float :=
  py_max f_0_05 (F64.sub (fee_tier pool) f_0_1).

Definition fee_up (pool : LiquidityPool) : float :=
  py_min f_1_0 (F64.add (fee_tier pool) f_0_1).

Definition range_wide (pool : LiquidityPool) : float * float :=
  (F64.mul (fst (price_range pool)) f_0_95, F64.mul (snd (price_range pool)) f_1_05).

Definition range_narrow (pool : LiquidityPool) : float * float :=
  (F64.add (fst (price_range pool)) f_0_02, F64.sub (snd (price_range pool)) f_0_02).

Definition yield_of `{!PyRuntime} (volume_data : DataFrame) (new_fee : float) : float :=
  F64.mul (F64.div new_fee f_100) (avg_volume_of volume_data).

(** The printed line that carries the yield estimate. *)
Definition is_yield_line (line : printed) : bool :=
  match line with YieldLine _ => true | _ => false end.

(** The two sides of the threshold, as [ai_agent] tests them. *)
Definition high_volume `{!PyRuntime} (volume_data : DataFrame) : Prop :=
  F64.geb (avg_volume_of volume_data) threshold = true.

Definition low_volume `{!PyRuntime} (volume_data : DataFrame) : Prop :=
  F64.ltb (avg_volume_of volume_data) threshold = true.

(** Doubles are compared bit for bit where a list of them is searched. *)
#[global] Instance float_eq_dec : EqDecision float.
Proof. unfold float, F64.float. solve_decision. Defined.

(** The fees that lowering and raising reach from the fees in [todo], as a
    worklist closure on top of [seen]; [fuel] bounds the number of steps. *)
Fixpoint fees_from (fuel : nat) (todo seen : list float) : list float :=
  match fuel with
  | O => seen
  | S fuel' =>
      match todo with
      | [] => seen
      | fee :: rest =>
          if bool_decide (fee ∈ seen) then fees_from fuel' rest seen
          else
            fees_from fuel'
              (py_max f_0_05 (F64.sub fee f_0_1) :: py_min f_1_0 (F64.add fee f_0_1) :: rest)
              (fee :: seen)
      end
  end.

(** Every fee a pool that starts at 0.3 can come to hold. *)
Definition fee_orbit : list float := Eval vm_compute in fees_from 200 [f_0_3] [].

(** The fee invariant [0.05 <= fee <= 1.0]. *)
Definition fee_in_bounds (fee : float) : bool :=
  F64.leb f_0_05 fee && F64.leb fee f_1_0.

(** The double nearest to 0.04, twice the narrowing step. *)
Definition f_0_04 : float := Eval vm_compute in F64.decimal 4 2.

(** The pool after a low-volume call. *)
Definition low_step (pool : LiquidityPool) : LiquidityPool :=
  set_price_range (range_narrow pool) (set_fee_tier (fee_up pool) pool).

(** The range invariant [lower < upper], and its inversion
    [lower > upper]. *)
Definition ordered (pool : LiquidityPool) : bool :=
  F64.ltb (fst (price_range pool)) (snd (price_range pool)).

Definition inverted (pool : LiquidityPool) : bool :=
  F64.gtb (fst (price_range pool)) (snd (price_range pool)).

(** The remainder [rem] left below a mantissa after [k] shifts, against the
    round and sticky bits. *)
Definition loc_ok (k rem : Z) (r s : bool) : Prop :=
  0 <= rem < 2 ^ k /\
  match r, s with
  | false, false => rem = 0
  | false, true => 0 < 2 * rem < 2 ^ k
  | true, false => 2 * rem = 2 ^ k
  | true, true => 2 ^ k < 2 * rem
  end.

(** What [k] right shifts of the mantissa [P] have left: the shifted
    mantissa, and the bits that tell where the shifted-out part lies. *)
Definition shr_inv (P k : Z) (mrs : shr_record) : Prop :=
  0 <= shr_m mrs /\ loc_ok k (P - shr_m mrs * 2 ^ k) (shr_r mrs) (shr_s mrs).

(** The keys [__init__] reads. *)
Definition init_keys : list string :=
  ["token_a"; "token_b"; "reserve_a"; "reserve_b"; "spot_price"; "liquidities"]%string.

(** The double [10 * 2 ^ -1074], which the literal [5e-323] denotes. *)
Definition f_5e_323 : float := S754_finite false 10 (-1074).

(** The snapshot of a pool whose spot price is the smallest positive
    double. *)
Definition tiny_snapshot : gmap string pyval :=
  <["spot_price" := PyStr "5e-324"]> Samples.snapshot.

(** ** Further notions

    A pool with a second reserve too large to boost. *)
Definition lopsided : LiquidityPool :=
  Samples.pool_with 10 (2 ^ 1024) f_0_3 (F64.of_Z 4) (F64.of_Z 6).

(** The two fee steps of [ai_agent], on the fee alone. *)
Definition lower_fee (fee : float) : float := py_max f_0_05 (F64.sub fee f_0_1).
Definition raise_fee (fee : float) : float := py_min f_1_0 (F64.add fee f_0_1).

(** The volume test of [ai_agent] fails: the [else] branches run. *)
Definition not_high_volume `{!PyRuntime} (volume_data : DataFrame) : Prop :=
  F64.geb (avg_volume_of volume_data) threshold = false.

(** The value of a double in units of [2 ^ -1200], below every exponent. *)
Definition scaled (m : positive) (e : Z) : Z := Z.pos m * 2 ^ (e + 1200).

(** A range of positive prices: both bounds are doubles, the lower one is
    positive, and [lower < upper]. *)
Definition price_like (range : float * float) : Prop :=
  valid_binary F64.prec F64.emax (fst range) = true /\
  valid_binary F64.prec F64.emax (snd range) = true /\
  F64.gtb (fst range) (S754_zero false) = true /\
  F64.ltb (fst range) (snd range) = true.

(** The frame [fetch_volume_data] returns when the request fails (line 75):
    [pd.DataFrame({"volume": [5_000_000]})]. *)
Definition volume_fallback : DataFrame :=
  {| df_rows := 1; df_columns := {[ "volume" := [f_5_000_000] ]} |}.

(** ** The pool [main] works on *)

(** [v == s] for a snapshot value [v] and a string [s]. *)
Definition py_eq_str (v : pyval) (s : string) : bool :=
  match v with
  | PyStr s' => String.eqb s' s
  | PyList _ => false
  end.

(** The test of the generator in [main] (lines 133 and 134):
    [pool["token_a"] == "wrap.near" and pool["token_b"] == "usdt.tether-token.near"];
    the second key is looked up only when the first test holds. *)
Definition is_near_usdt (pool : gmap string pyval) : result bool :=
  a ← getitem pool "token_a";
  if py_eq_str a "wrap.near" then
    b ← getitem pool "token_b";
    mret (py_eq_str b "usdt.tether-token.near")
  else mret false.

(** [next((pool for pool in pools if ...), None)] of [main] (lines 129 to
    137): the first listed pool that passes the test. *)
Fixpoint near_usdt_pool (pools : list (gmap string pyval))
  : result (option (gmap string pyval)) :=
  match pools with
  | [] => Ok None
  | pool :: rest =>
      hit ← is_near_usdt pool;
      if (hit : bool) then Ok (Some pool) else near_usdt_pool rest
  end.

Section Main.

Context `{!PyRuntime}.

(** The pool object [main] builds (lines 125 to 142) from what
    [fetch_pool_data] returned: [None] after a failed request, the listed
    pools otherwise.  [Ok None] stands for the two early returns; the
    lines [main] prints on the way are left out.  [if not near_usdt_pool]
    is the truth test of a dict, which fails on the empty one. *)
Definition main_pool (pools : option (list (gmap string pyval)))
  : result (option LiquidityPool) :=
  match pools with
  | None | Some [] => Ok None
  | Some pools =>
      found ← near_usdt_pool pools;
      match found with
      | None => Ok None
      | Some pool_data =>
          if bool_decide (pool_data = ∅) then Ok None
          else pool ← __init__ pool_data; mret (Some pool)
      end
  end.

End Main.

(** A record that passes the test of the generator. *)
Definition has_tokens (pool : gmap string pyval) : Prop :=
  pool !! "token_a" = Some (PyStr "wrap.near") /\
  pool !! "token_b" = Some (PyStr "usdt.tether-token.near").

(** A listing of three records: another pair, the NEAR/USDT pool, and a
    record without [token_a]. *)
Definition other_pair : gmap string pyval :=
  <["token_a" := PyStr "aurora"]> Samples.snapshot.

Definition unnamed : gmap string pyval := delete "token_a" Samples.snapshot.

(** ** Frames whose columns need not hold floats

    [DataFrame] above holds float columns, on which [mean()] returns a
    float: the frames [fetch_volume_data] builds.  A caller of [ai_agent]
    may pass a frame with a column of strings, which pandas keeps as
    objects and on which [mean()] may raise. *)
Inductive Column : Type :=
| FloatColumn (values : list float)
| ObjectColumn (values : list string).

Record AnyFrame : Type := {
  af_rows : nat;
  af_columns : gmap string Column
}.

(** [Series.mean()] on a column of strings: the float pandas computes, or
    the exception it raises.  pandas 2 raises [TypeError] on every string;
    older versions return a float when the joined strings read as a
    number.  The development is parametric in it. *)
Class PandasObjects : Type := object_mean : list string -> result float.

(** [df.empty] *)
Definition af_empty (df : AnyFrame) : bool :=
  Nat.eqb (af_rows df) 0 || bool_decide (af_columns df = ∅).

Section AnyProgram.

Context `{!PyRuntime} `{!PandasObjects}.

(** [column.mean()] *)
Definition column_mean (column : Column) : result float :=
  match column with
  | FloatColumn values => Ok (series_mean values)
  | ObjectColumn values => object_mean values
  end.

(** Lines 82 to 86: the value bound to [avg_volume], or what [mean()]
    raises. *)
Definition avg_volume_any (volume_data : AnyFrame) : result float :=
  if negb (af_empty volume_data) then
    match af_columns volume_data !! "volume" with
    | Some column => column_mean column
    | None => Ok f_5_000_000
    end
  else Ok f_5_000_000.

(** Lines 87 to 119 of [ai_agent], from the value of [avg_volume] on. *)
Definition adjust (avg_volume : float) : cmd (float * (float * float)) :=
  new_fee ←
    (if F64.geb avg_volume threshold then
       fee ← attr fee_tier;
       let new_fee := py_max f_0_05 (F64.sub fee f_0_1) in
       print (HighVolumeLine avg_volume new_fee);;
       ra ← attr reserve_a;
       ra' ← lift (boosted ra);
       assign (set_reserve_a ra');;
       rb ← attr reserve_b;
       rb' ← lift (boosted rb);
       assign (set_reserve_b rb');;
       ra ← attr reserve_a;
       rb ← attr reserve_b;
       print (SlippageLine ra rb);;
       mret new_fee
     else
       fee ← attr fee_tier;
       let new_fee := py_min f_1_0 (F64.add fee f_0_1) in
       print (LowVolumeLine avg_volume new_fee);;
       mret new_fee);
  '(lower, upper) ← attr price_range;
  new_range ←
    (if F64.geb avg_volume threshold then
       let new_range := (F64.mul lower f_0_95, F64.mul upper f_1_05) in
       print (WideningLine new_range);;
       mret new_range
     else
       let new_range := (F64.add lower f_0_02, F64.sub upper f_0_02) in
       print (NarrowingLine new_range);;
       mret new_range);
  let yield_estimate := F64.mul (F64.div new_fee f_100) avg_volume in
  print (YieldLine yield_estimate);;
  assign (set_fee_tier new_fee);;
  assign (set_price_range new_range);;
  mret (new_fee, new_range).

(** [ai_agent(pool, volume_data)] on a frame of any kind. *)
Definition ai_agent_any (volume_data : AnyFrame) : cmd (float * (float * float)) :=
  avg_volume ← lift (avg_volume_any volume_data);
  adjust avg_volume.

Definition call_any (pool : LiquidityPool) (volume_data : AnyFrame)
  : world * result (float * (float * float)) :=
  ai_agent_any volume_data {| the_pool := pool; console := [] |}.

Definition pool_after_any (pool : LiquidityPool) (volume_data : AnyFrame) : LiquidityPool :=
  the_pool (fst (call_any pool volume_data)).

Definition printed_by_any (pool : LiquidityPool) (volume_data : AnyFrame) : list printed :=
  console (fst (call_any pool volume_data)).

Definition outcome_any (pool : LiquidityPool) (volume_data : AnyFrame)
  : result (float * (float * float)) :=
  snd (call_any pool volume_data).

End AnyProgram.

(** A frame of floats as a frame of any kind. *)
Definition any_of (df : DataFrame) : AnyFrame :=
  {| af_rows := df_rows df; af_columns := FloatColumn <$> df_columns df |}.

Module AnySamples.

(** pandas 2: [mean()] raises [TypeError] on strings. *)
#[export] Instance objects : PandasObjects := fun _ => Raise TypeError.

(** [pd.DataFrame({"volume": ["abc"]})] *)
Definition words : AnyFrame :=
  {| af_rows := 1; af_columns := {[ "volume" := ObjectColumn ["abc"] ]} |}.

End AnySamples.

(** * Properties *)

(** ** Comparisons *)

Lemma SFcompare_swap (x y : float) :
  SFcompare y x = option_map CompOpp (SFcompare x y).
Proof.
  destruct x as [sx|sx| |sx mx ex], y as [sy|sy| |sy my ey]; simpl;
    try reflexivity; try (destruct sx; reflexivity); try (destruct sy; reflexivity);
    try (destruct sx, sy; reflexivity).
  destruct sx, sy; simpl; try reflexivity;
    rewrite (Z.compare_antisym ex ey);
    destruct (ex ?= ey); simpl; try reflexivity;
    rewrite (Pos.compare_cont_antisym mx my Eq); simpl;
    try rewrite CompOpp_involutive; reflexivity.
Qed.

Lemma ltb_not_geb (x y : float) : F64.ltb x y = true -> F64.geb x y = false.
Proof.
  unfold F64.ltb, F64.geb, SFltb, SFleb.
  rewrite (SFcompare_swap x y).
  destruct (SFcompare x y) as [[]|]; simpl; congruence.
Qed.

Lemma eqb_finite (x : float) (s : bool) (m : positive) (e : Z) :
  F64.eqb x (S754_finite s m e) = true -> x = S754_finite s m e.
Proof.
  unfold F64.eqb, SFeqb.
  destruct x as [sx|sx| |sx mx ex]; simpl;
    try (destruct s; discriminate); try (destruct sx; discriminate).
  destruct sx, s; simpl; try discriminate;
    destruct (ex ?= e) eqn:He; try discriminate;
    destruct (Pos.compare_cont Eq mx m) eqn:Hm; try discriminate;
    intros _; apply Z.compare_eq in He; apply Pos.compare_eq in Hm; congruence.
Qed.

(** ** One call, case by case *)

(** Runs the commands of a call as far as they are determined. *)
Ltac run_cmd :=
  unfold mbind, cmd_mbind, cmd_bind, attr, lift, print, assign; simpl.

Section Calls.

Context `{!PyRuntime}.

Variable pool : LiquidityPool.
Variable volume_data : DataFrame.

Let avg_volume := avg_volume_of volume_data.

Lemma call_low :
  F64.geb avg_volume threshold = false ->
  call pool volume_data =
    ({| the_pool := set_price_range (range_narrow pool) (set_fee_tier (fee_up pool) pool);
        console := [LowVolumeLine avg_volume (fee_up pool);
                    NarrowingLine (range_narrow pool);
                    YieldLine (yield_of volume_data (fee_up pool))] |},
     Ok (fee_up pool, range_narrow pool)).
Proof.
  intros Hlow. unfold call, ai_agent, range_narrow, yield_of, fee_up.
  fold avg_volume. rewrite Hlow.
  destruct pool as [ta tb ra rb sp fee [lower upper] tl pid]. reflexivity.
Qed.

Lemma call_high (ra' rb' : Z) :
  F64.geb avg_volume threshold = true ->
  boosted (reserve_a pool) = Ok ra' ->
  boosted (reserve_b pool) = Ok rb' ->
  call pool volume_data =
    ({| the_pool :=
          set_price_range (range_wide pool)
            (set_fee_tier (fee_down pool) (set_reserve_b rb' (set_reserve_a ra' pool)));
        console := [HighVolumeLine avg_volume (fee_down pool);
                    SlippageLine ra' rb';
                    WideningLine (range_wide pool);
                    YieldLine (yield_of volume_data (fee_down pool))] |},
     Ok (fee_down pool, range_wide pool)).
Proof.
  intros Hhigh Ha Hb. unfold call, ai_agent, range_wide, yield_of, fee_down.
  fold avg_volume. rewrite Hhigh.
  destruct pool as [ta tb ra rb sp fee [lower upper] tl pid]. simpl in *.
  run_cmd.
  rewrite Ha; simpl. rewrite Hb; simpl. reflexivity.
Qed.

Lemma call_high_raise_a (e : exn) :
  F64.geb avg_volume threshold = true ->
  boosted (reserve_a pool) = Raise e ->
  call pool volume_data =
    ({| the_pool := pool; console := [HighVolumeLine avg_volume (fee_down pool)] |},
     Raise e).
Proof.
  intros Hhigh Ha. unfold call, ai_agent, fee_down.
  fold avg_volume. rewrite Hhigh.
  destruct pool as [ta tb ra rb sp fee [lower upper] tl pid]. simpl in *.
  run_cmd.
  rewrite Ha; simpl. reflexivity.
Qed.

Lemma call_high_raise_b (ra' : Z) (e : exn) :
  F64.geb avg_volume threshold = true ->
  boosted (reserve_a pool) = Ok ra' ->
  boosted (reserve_b pool) = Raise e ->
  call pool volume_data =
    ({| the_pool := set_reserve_a ra' pool;
        console := [HighVolumeLine avg_volume (fee_down pool)] |},
     Raise e).
Proof.
  intros Hhigh Ha Hb. unfold call, ai_agent, fee_down.
  fold avg_volume. rewrite Hhigh.
  destruct pool as [ta tb ra rb sp fee [lower upper] tl pid]. simpl in *.
  run_cmd.
  rewrite Ha; simpl. rewrite Hb; simpl. reflexivity.
Qed.

End Calls.

(** [int(x)] truncates toward zero: for a finite [x] of magnitude
    [m * 2 ^ e] the result has the sign of [x] and the magnitude [k] with
    [k <= m * 2 ^ e < k + 1]. *)
Lemma int_of_float_truncates (s : bool) (m : positive) (e z : Z) :
  int_of_float (S754_finite s m e) = Ok z ->
  exists k : Z,
    z = cond_Zopp s k /\
    k * 2 ^ Z.max 0 (- e) <= Z.pos m * 2 ^ Z.max 0 e < (k + 1) * 2 ^ Z.max 0 (- e).
Proof.
  simpl. intros [= <-].
  destruct (Z.leb_spec 0 e) as [He|He].
  - exists (Z.pos m * 2 ^ e). split; [reflexivity|].
    rewrite (Z.max_l 0 (- e)), (Z.max_r 0 e) by lia.
    change (2 ^ 0) with 1. lia.
  - exists (Z.pos m / 2 ^ (- e)). split; [reflexivity|].
    rewrite (Z.max_r 0 (- e)), (Z.max_l 0 e) by lia.
    change (2 ^ 0) with 1.
    assert (Hpow : 0 < 2 ^ (- e)) by (apply Z.pow_pos_nonneg; lia).
    pose proof (Z.mul_div_le (Z.pos m) (2 ^ (- e)) Hpow).
    pose proof (Z.mul_succ_div_gt (Z.pos m) (2 ^ (- e)) Hpow).
    lia.
Qed.

(** ** The low-volume branch *)

(** C2. For every pool state and every volume frame whose average volume is
    below 700, one call sets [fee_tier] to [min(1.0, fee_tier + 0.1)], leaves
    both reserves as they are, sets [price_range] to
    [(lower + 0.02, upper - 0.02)], and returns the new fee and range. *)
Theorem low_volume_call `{!PyRuntime} (pool : LiquidityPool) (volume_data : DataFrame) :
  F64.ltb (avg_volume_of volume_data) threshold = true ->
  let pool' := pool_after pool volume_data in
  fee_tier pool' = py_min f_1_0 (F64.add (fee_tier pool) f_0_1) /\
  reserve_a pool' = reserve_a pool /\
  reserve_b pool' = reserve_b pool /\
  price_range pool' =
    (F64.add (fst (price_range pool)) f_0_02, F64.sub (snd (price_range pool)) f_0_02) /\
  outcome pool volume_data = Ok (fee_tier pool', price_range pool').
Proof.
  intros Hlt. apply ltb_not_geb in Hlt.
  unfold pool_after, outcome. rewrite (call_low pool volume_data Hlt).
  simpl. repeat split; reflexivity.
Qed.

Lemma low_volume_call_witness :
  F64.ltb (avg_volume_of (H := Reference.runtime) Samples.quiet) threshold = true /\
  fee_tier (pool_after (H := Reference.runtime) Samples.fresh Samples.quiet) =
    py_min f_1_0 (F64.add (fee_tier Samples.fresh) f_0_1).
Proof.
  assert (Hlt : F64.ltb (avg_volume_of (H := Reference.runtime) Samples.quiet) threshold = true)
    by (vm_compute; reflexivity).
  split; [exact Hlt|].
  exact (proj1 (low_volume_call (H := Reference.runtime) Samples.fresh Samples.quiet Hlt)).
Defined.

(** ** The high-volume branch *)

(** C1, as amended. For every pool state whose two reserves can be boosted
    ([int(reserve * 1.1)] does not raise) and every volume frame whose
    average volume is at least 700, the threshold included, one call sets
    [fee_tier] to [max(0.05, fee_tier - 0.1)] and [price_range] to
    [(lower * 0.95, upper * 1.05)], and returns both. *)
Theorem high_volume_call `{!PyRuntime} (pool : LiquidityPool) (volume_data : DataFrame) :
  F64.geb (avg_volume_of volume_data) threshold = true ->
  is_Ok (boosted (reserve_a pool)) = true ->
  is_Ok (boosted (reserve_b pool)) = true ->
  let pool' := pool_after pool volume_data in
  fee_tier pool' = py_max f_0_05 (F64.sub (fee_tier pool) f_0_1) /\
  price_range pool' =
    (F64.mul (fst (price_range pool)) f_0_95, F64.mul (snd (price_range pool)) f_1_05) /\
  outcome pool volume_data = Ok (fee_tier pool', price_range pool').
Proof.
  intros Hge Ha Hb.
  destruct (boosted (reserve_a pool)) as [ra'|] eqn:Ea; [|discriminate].
  destruct (boosted (reserve_b pool)) as [rb'|] eqn:Eb; [|discriminate].
  unfold pool_after, outcome. rewrite (call_high pool volume_data ra' rb' Hge Ea Eb).
  simpl. repeat split; reflexivity.
Qed.

Lemma high_volume_call_witness :
  F64.geb (avg_volume_of (H := Reference.runtime) Samples.busy) threshold = true /\
  is_Ok (boosted (reserve_a Samples.fresh)) = true /\
  is_Ok (boosted (reserve_b Samples.fresh)) = true /\
  fee_tier (pool_after (H := Reference.runtime) Samples.fresh Samples.busy) =
    py_max f_0_05 (F64.sub (fee_tier Samples.fresh) f_0_1).
Proof.
  assert (Hge : F64.geb (avg_volume_of (H := Reference.runtime) Samples.busy) threshold = true)
    by (vm_compute; reflexivity).
  assert (Ha : is_Ok (boosted (reserve_a Samples.fresh)) = true) by (vm_compute; reflexivity).
  assert (Hb : is_Ok (boosted (reserve_b Samples.fresh)) = true) by (vm_compute; reflexivity).
  split; [exact Hge|]. split; [exact Ha|]. split; [exact Hb|].
  exact (proj1 (high_volume_call (H := Reference.runtime)
                  Samples.fresh Samples.busy Hge Ha Hb)).
Defined.

(** The threshold itself counts as high volume. *)
Example threshold_is_high :
  F64.geb (avg_volume_of (H := Reference.runtime) (Samples.frame f_700)) threshold = true.
Proof. vm_compute; reflexivity. Qed.

(** C1 fails as stated: with a reserve of [2 ^ 1024] units the conversion of
    the reserve to a float raises [OverflowError] in the high-volume branch,
    before the fee and the range are assigned, and the pool keeps its old
    fee. *)
Lemma high_volume_call_overflow :
  let pool := Samples.pool_with (2 ^ 1024) (5 * 10 ^ 12) f_0_3 (F64.of_Z 4) (F64.of_Z 6) in
  F64.geb (avg_volume_of (H := Reference.runtime) Samples.busy) threshold = true /\
  outcome (H := Reference.runtime) pool Samples.busy = Raise OverflowError /\
  fee_tier (pool_after (H := Reference.runtime) pool Samples.busy) = f_0_3 /\
  fee_tier (pool_after (H := Reference.runtime) pool Samples.busy) <>
    py_max f_0_05 (F64.sub (fee_tier pool) f_0_1) /\
  price_range (pool_after (H := Reference.runtime) pool Samples.busy) <>
    (F64.mul (fst (price_range pool)) f_0_95, F64.mul (snd (price_range pool)) f_1_05).
Proof.
  vm_compute. repeat split; try reflexivity; discriminate.
Qed.

(** C3, as amended. For every pool state and every volume frame whose
    average volume is at least 700, if [int(reserve_a * 1.1)] and
    [int(reserve_b * 1.1)] evaluate to [ra'] and [rb'], the call leaves the
    pool with these reserves; each is the reserve converted to a double,
    multiplied by the double 1.1 and truncated toward zero, not rounded. *)
Theorem high_volume_reserves `{!PyRuntime}
    (pool : LiquidityPool) (volume_data : DataFrame) (ra' rb' : Z) :
  F64.geb (avg_volume_of volume_data) threshold = true ->
  boosted (reserve_a pool) = Ok ra' ->
  boosted (reserve_b pool) = Ok rb' ->
  reserve_a (pool_after pool volume_data) = ra' /\
  reserve_b (pool_after pool volume_data) = rb' /\
  (exists xa xb : float,
      int_mul_float (reserve_a pool) f_1_1 = Ok xa /\ int_of_float xa = Ok ra' /\
      int_mul_float (reserve_b pool) f_1_1 = Ok xb /\ int_of_float xb = Ok rb').
Proof.
  intros Hge Ha Hb.
  unfold pool_after. rewrite (call_high pool volume_data ra' rb' Hge Ha Hb). simpl.
  split; [reflexivity|]. split; [reflexivity|].
  unfold boosted in Ha, Hb.
  destruct (int_mul_float (reserve_a pool) f_1_1) as [xa|] eqn:Ea; [|discriminate].
  destruct (int_mul_float (reserve_b pool) f_1_1) as [xb|] eqn:Eb; [|discriminate].
  exists xa, xb. repeat split; assumption.
Qed.

Lemma high_volume_reserves_witness :
  F64.geb (avg_volume_of (H := Reference.runtime) Samples.busy) threshold = true /\
  boosted (reserve_a Samples.fresh) = Ok 1100000000000000134463078006784 /\
  boosted (reserve_b Samples.fresh) = Ok 5500000000000 /\
  reserve_a (pool_after (H := Reference.runtime) Samples.fresh Samples.busy) =
    1100000000000000134463078006784.
Proof.
  assert (Hge : F64.geb (avg_volume_of (H := Reference.runtime) Samples.busy) threshold = true)
    by (vm_compute; reflexivity).
  assert (Ha : boosted (reserve_a Samples.fresh) = Ok 1100000000000000134463078006784)
    by (vm_compute; reflexivity).
  assert (Hb : boosted (reserve_b Samples.fresh) = Ok 5500000000000)
    by (vm_compute; reflexivity).
  split; [exact Hge|]. split; [exact Ha|]. split; [exact Hb|].
  exact (proj1 (high_volume_reserves (H := Reference.runtime)
                  Samples.fresh Samples.busy _ _ Hge Ha Hb)).
Defined.

(** C3 fails as stated: a reserve of 6 units is boosted to
    [int(6.6000000000000005) = 6], while rounding gives 7. *)
Lemma high_volume_reserves_not_rounded :
  let pool := Samples.pool_with 6 6 f_0_3 (F64.of_Z 4) (F64.of_Z 6) in
  F64.geb (avg_volume_of (H := Reference.runtime) Samples.busy) threshold = true /\
  (int_mul_float (reserve_a pool) f_1_1 ≫= py_round) = Ok 7 /\
  reserve_a (pool_after (H := Reference.runtime) pool Samples.busy) = 6 /\
  Ok (reserve_a (pool_after (H := Reference.runtime) pool Samples.busy)) <>
    (int_mul_float (reserve_a pool) f_1_1 ≫= py_round).
Proof.
  vm_compute. repeat split; try reflexivity; discriminate.
Qed.

(** ** The yield estimate *)

(** Either both reserves can be boosted or one of the two cannot. *)
Lemma boosted_cases (ra rb : Z) :
  (exists ra' rb', boosted ra = Ok ra' /\ boosted rb = Ok rb') \/
  (exists e, boosted ra = Raise e) \/
  (exists ra' e, boosted ra = Ok ra' /\ boosted rb = Raise e).
Proof.
  destruct (boosted ra) as [ra'|ea]; [|right; left; eauto].
  destruct (boosted rb) as [rb'|eb]; [left|right; right]; eauto.
Qed.

(** A call returns on the low-volume branch, and on the high-volume branch
    when both reserves can be boosted. *)
Lemma call_returns `{!PyRuntime} (pool : LiquidityPool) (volume_data : DataFrame) :
  F64.geb (avg_volume_of volume_data) threshold = false \/
  is_Ok (boosted (reserve_a pool)) && is_Ok (boosted (reserve_b pool)) = true ->
  is_Ok (outcome pool volume_data) = true.
Proof.
  unfold outcome.
  destruct (F64.geb (avg_volume_of volume_data) threshold) eqn:Hge.
  - intros [Hlow|Hok]; [discriminate|].
    destruct (boosted (reserve_a pool)) as [ra'|] eqn:Ha; [|discriminate].
    destruct (boosted (reserve_b pool)) as [rb'|] eqn:Hb; [|discriminate].
    rewrite (call_high pool volume_data ra' rb' Hge Ha Hb). reflexivity.
  - intros _. rewrite (call_low pool volume_data Hge). reflexivity.
Qed.

(** C6. For every pool state and every volume frame, a call that returns
    has printed exactly one yield estimate, and it is
    [(new_fee / 100) * avg_volume] for the fee the call returned and stored,
    on the high-volume and on the low-volume branch alike.  A call that does
    not return is a high-volume call in which a reserve could not be
    boosted; it prints no yield estimate. *)
Theorem yield_estimate_exact `{!PyRuntime} (pool : LiquidityPool) (volume_data : DataFrame) :
  match outcome pool volume_data with
  | Ok (new_fee, _) =>
      fee_tier (pool_after pool volume_data) = new_fee /\
      new_fee =
        (if F64.geb (avg_volume_of volume_data) threshold
         then py_max f_0_05 (F64.sub (fee_tier pool) f_0_1)
         else py_min f_1_0 (F64.add (fee_tier pool) f_0_1)) /\
      List.filter is_yield_line (printed_by pool volume_data) =
        [YieldLine (F64.mul (F64.div new_fee f_100) (avg_volume_of volume_data))]
  | Raise _ =>
      F64.geb (avg_volume_of volume_data) threshold = true /\
      is_Ok (boosted (reserve_a pool)) && is_Ok (boosted (reserve_b pool)) = false /\
      List.filter is_yield_line (printed_by pool volume_data) = []
  end.
Proof.
  unfold outcome, pool_after, printed_by.
  destruct (F64.geb (avg_volume_of volume_data) threshold) eqn:Hge.
  - destruct (boosted_cases (reserve_a pool) (reserve_b pool))
      as [(ra' & rb' & Ha & Hb)|[(e & Ha)|(ra' & e & Ha & Hb)]].
    + rewrite (call_high pool volume_data ra' rb' Hge Ha Hb). simpl.
      repeat split; reflexivity.
    + rewrite (call_high_raise_a pool volume_data e Hge Ha), Ha. simpl.
      repeat split; reflexivity.
    + rewrite (call_high_raise_b pool volume_data ra' e Hge Ha Hb), Ha, Hb. simpl.
      repeat split; reflexivity.
  - rewrite (call_low pool volume_data Hge). simpl.
    repeat split; reflexivity.
Qed.

(** ** What a call reads of the frame *)

(** A call looks at the volume frame only through its average volume. *)
Lemma call_depends_on_avg `{!PyRuntime} (pool : LiquidityPool) (vd1 vd2 : DataFrame) :
  avg_volume_of vd1 = avg_volume_of vd2 ->
  call pool vd1 = call pool vd2.
Proof.
  intros Havg.
  destruct (F64.geb (avg_volume_of vd1) threshold) eqn:Hge1;
    pose proof Hge1 as Hge2; rewrite Havg in Hge2.
  - destruct (boosted_cases (reserve_a pool) (reserve_b pool))
      as [(ra' & rb' & Ha & Hb)|[(e & Ha)|(ra' & e & Ha & Hb)]].
    + rewrite (call_high pool vd1 ra' rb' Hge1 Ha Hb), (call_high pool vd2 ra' rb' Hge2 Ha Hb).
      unfold yield_of. rewrite Havg. reflexivity.
    + rewrite (call_high_raise_a pool vd1 e Hge1 Ha), (call_high_raise_a pool vd2 e Hge2 Ha).
      rewrite Havg. reflexivity.
    + rewrite (call_high_raise_b pool vd1 ra' e Hge1 Ha Hb),
        (call_high_raise_b pool vd2 ra' e Hge2 Ha Hb).
      rewrite Havg. reflexivity.
  - rewrite (call_low pool vd1 Hge1), (call_low pool vd2 Hge2).
    unfold yield_of. rewrite Havg. reflexivity.
Qed.

(** ** The fallback volume *)

Lemma avg_volume_fallback `{!PyRuntime} (volume_data : DataFrame) :
  df_empty volume_data = true \/ df_contains "volume" volume_data = false ->
  avg_volume_of volume_data = f_5_000_000.
Proof.
  unfold avg_volume_of. intros [-> | ->]; simpl; [reflexivity|].
  rewrite andb_false_r. reflexivity.
Qed.

(** C9, as amended. A call with an empty volume frame, or with one that has
    no column [volume], computes with the average volume 5,000,000 itself
    and so takes the high-volume branch: when both reserves can be boosted
    it sets the fee to [max(0.05, fee_tier - 0.1)], both reserves to
    [int(reserve * 1.1)] and the range to [(lower * 0.95, upper * 1.05)]. *)
Theorem missing_volume_takes_high_branch `{!PyRuntime}
    (pool : LiquidityPool) (volume_data : DataFrame) :
  df_empty volume_data = true \/ df_contains "volume" volume_data = false ->
  avg_volume_of volume_data = f_5_000_000 /\
  F64.geb (avg_volume_of volume_data) threshold = true /\
  (is_Ok (boosted (reserve_a pool)) = true ->
   is_Ok (boosted (reserve_b pool)) = true ->
   let pool' := pool_after pool volume_data in
   fee_tier pool' = py_max f_0_05 (F64.sub (fee_tier pool) f_0_1) /\
   boosted (reserve_a pool) = Ok (reserve_a pool') /\
   boosted (reserve_b pool) = Ok (reserve_b pool') /\
   price_range pool' =
     (F64.mul (fst (price_range pool)) f_0_95, F64.mul (snd (price_range pool)) f_1_05) /\
   outcome pool volume_data = Ok (fee_tier pool', price_range pool')).
Proof.
  intros Hmissing. pose proof (avg_volume_fallback volume_data Hmissing) as Havg.
  assert (Hge : F64.geb (avg_volume_of volume_data) threshold = true).
  { rewrite Havg. vm_compute. reflexivity. }
  split; [exact Havg|]. split; [exact Hge|].
  intros Ha Hb.
  destruct (boosted (reserve_a pool)) as [ra'|] eqn:Ea; [|discriminate].
  destruct (boosted (reserve_b pool)) as [rb'|] eqn:Eb; [|discriminate].
  unfold pool_after, outcome. rewrite (call_high pool volume_data ra' rb' Hge Ea Eb).
  simpl. repeat split; reflexivity.
Qed.

Lemma missing_volume_takes_high_branch_witness :
  (df_empty Samples.no_frame = true \/ df_contains "volume" Samples.no_frame = false) /\
  avg_volume_of (H := Reference.runtime) Samples.no_frame = f_5_000_000.
Proof.
  assert (Hmissing : df_empty Samples.no_frame = true \/
                     df_contains "volume" Samples.no_frame = false)
    by (left; vm_compute; reflexivity).
  split; [exact Hmissing|].
  exact (proj1 (missing_volume_takes_high_branch (H := Reference.runtime)
                  Samples.fresh Samples.no_frame Hmissing)).
Defined.

(** C9 fails as stated: with a reserve of [2 ^ 1024] units and an empty
    frame the call enters the high-volume branch and raises [OverflowError]
    there; the fee, the reserves and the range stay as they were. *)
Lemma missing_volume_overflow :
  let pool := Samples.pool_with (2 ^ 1024) (5 * 10 ^ 12) f_0_3 (F64.of_Z 4) (F64.of_Z 6) in
  df_empty Samples.no_frame = true /\
  outcome (H := Reference.runtime) pool Samples.no_frame = Raise OverflowError /\
  pool_after (H := Reference.runtime) pool Samples.no_frame = pool /\
  fee_tier (pool_after (H := Reference.runtime) pool Samples.no_frame) <>
    py_max f_0_05 (F64.sub (fee_tier pool) f_0_1).
Proof.
  vm_compute. repeat split; try reflexivity; discriminate.
Qed.

(** ** The fee along a series of calls *)

(** The fee after a call: lowered, raised, or, when the call raised before
    the assignment, the old one. *)
Lemma fee_after_call `{!PyRuntime} (pool : LiquidityPool) (volume_data : DataFrame) :
  (F64.geb (avg_volume_of volume_data) threshold = true /\
   (fee_tier (pool_after pool volume_data) = fee_down pool \/
    fee_tier (pool_after pool volume_data) = fee_tier pool)) \/
  (F64.geb (avg_volume_of volume_data) threshold = false /\
   fee_tier (pool_after pool volume_data) = fee_up pool).
Proof.
  unfold pool_after.
  destruct (F64.geb (avg_volume_of volume_data) threshold) eqn:Hge; [left|right];
    (split; [reflexivity|]).
  - destruct (boosted_cases (reserve_a pool) (reserve_b pool))
      as [(ra' & rb' & Ha & Hb)|[(e & Ha)|(ra' & e & Ha & Hb)]].
    + rewrite (call_high pool volume_data ra' rb' Hge Ha Hb). left. reflexivity.
    + rewrite (call_high_raise_a pool volume_data e Hge Ha). right. reflexivity.
    + rewrite (call_high_raise_b pool volume_data ra' e Hge Ha Hb). right. reflexivity.
  - rewrite (call_low pool volume_data Hge). reflexivity.
Qed.

(** A property of the pool that every call keeps holds after every call of
    a series. *)
Lemma pool_trace_invariant `{!PyRuntime} (P : LiquidityPool -> Prop)
    (Q : DataFrame -> Prop) (frames : list DataFrame) :
  (forall pool volume_data, P pool -> Q volume_data -> P (pool_after pool volume_data)) ->
  forall pool, P pool -> Forall Q frames -> Forall P (pool_trace pool frames).
Proof.
  intros Hstep. induction frames as [|volume_data rest IH]; intros pool Hpool Hframes.
  - constructor.
  - inversion Hframes as [|? ? Hhead Hrest]; subst. simpl.
    constructor.
    + apply Hstep; assumption.
    + destruct (is_Ok (outcome pool volume_data)); [|constructor].
      apply IH; [apply Hstep|]; assumption.
Qed.

(** C7. Once [fee_tier == 0.05], the fee is [0.05] after each of any number
    of consecutive high-volume calls; once [fee_tier == 1.0], it is [1.0]
    after each of any number of consecutive low-volume calls. *)
Theorem fee_clamps_idempotent `{!PyRuntime} (pool : LiquidityPool) (frames : list DataFrame) :
  (F64.eqb (fee_tier pool) f_0_05 = true ->
   Forall high_volume frames ->
   Forall (fun p => F64.eqb (fee_tier p) f_0_05 = true) (pool_trace pool frames)) /\
  (F64.eqb (fee_tier pool) f_1_0 = true ->
   Forall low_volume frames ->
   Forall (fun p => F64.eqb (fee_tier p) f_1_0 = true) (pool_trace pool frames)).
Proof.
  split; intros Hfee Hframes.
  - apply (pool_trace_invariant _ high_volume); try assumption.
    clear. intros pool volume_data Hfee Hhigh. red in Hhigh.
    apply eqb_finite in Hfee.
    destruct (fee_after_call pool volume_data) as [(_ & [-> | ->])|(Hge & _)];
      [| |congruence].
    + unfold fee_down. rewrite Hfee. vm_compute. reflexivity.
    + rewrite Hfee. vm_compute. reflexivity.
  - apply (pool_trace_invariant _ low_volume); try assumption.
    clear. intros pool volume_data Hfee Hlow. red in Hlow.
    apply eqb_finite in Hfee. apply ltb_not_geb in Hlow.
    destruct (fee_after_call pool volume_data) as [(Hge & _)|(_ & ->)]; [congruence|].
    unfold fee_up. rewrite Hfee. vm_compute. reflexivity.
Qed.

Lemma fee_clamps_idempotent_witness :
  let at_floor := Samples.pool_with (10 ^ 30) (5 * 10 ^ 12) f_0_05 (F64.of_Z 4) (F64.of_Z 6) in
  F64.eqb (fee_tier at_floor) f_0_05 = true /\
  Forall (high_volume (H := Reference.runtime)) [Samples.busy; Samples.no_frame; Samples.busy] /\
  Forall (fun p => F64.eqb (fee_tier p) f_0_05 = true)
    (pool_trace (H := Reference.runtime) at_floor [Samples.busy; Samples.no_frame; Samples.busy]).
Proof.
  intros at_floor.
  assert (Hfee : F64.eqb (fee_tier at_floor) f_0_05 = true) by (vm_compute; reflexivity).
  assert (Hframes : Forall (high_volume (H := Reference.runtime))
                      [Samples.busy; Samples.no_frame; Samples.busy])
    by (repeat constructor; vm_compute; reflexivity).
  split; [exact Hfee|]. split; [exact Hframes|].
  exact (proj1 (fee_clamps_idempotent (H := Reference.runtime) at_floor _) Hfee Hframes).
Defined.

(** ** The fee bounds *)

Lemma fee_orbit_start : f_0_3 ∈ fee_orbit.
Proof. apply (bool_decide_unpack _). vm_compute. exact I. Qed.

Lemma fee_orbit_closed (fee : float) :
  fee ∈ fee_orbit ->
  py_max f_0_05 (F64.sub fee f_0_1) ∈ fee_orbit /\
  py_min f_1_0 (F64.add fee f_0_1) ∈ fee_orbit.
Proof.
  assert (Hall : Forall (fun fee => py_max f_0_05 (F64.sub fee f_0_1) ∈ fee_orbit /\
                                    py_min f_1_0 (F64.add fee f_0_1) ∈ fee_orbit) fee_orbit).
  { apply (bool_decide_unpack _). vm_compute. exact I. }
  rewrite Forall_forall in Hall. apply Hall.
Qed.

Lemma fee_orbit_in_bounds (fee : float) :
  fee ∈ fee_orbit -> fee_in_bounds fee = true.
Proof.
  assert (Hall : Forall (fun fee => fee_in_bounds fee = true) fee_orbit).
  { apply (bool_decide_unpack _). vm_compute. exact I. }
  rewrite Forall_forall in Hall. apply Hall.
Qed.

Lemma fee_orbit_call `{!PyRuntime} (pool : LiquidityPool) (volume_data : DataFrame) :
  fee_tier pool ∈ fee_orbit -> fee_tier (pool_after pool volume_data) ∈ fee_orbit.
Proof.
  intros Hin. destruct (fee_orbit_closed _ Hin) as [Hdown Hup].
  destruct (fee_after_call pool volume_data) as [(_ & [-> | ->])|(_ & ->)]; assumption.
Qed.

Lemma init_fee `{!PyRuntime} (pool_data : gmap string pyval) (pool : LiquidityPool) :
  __init__ pool_data = Ok pool ->
  fee_tier pool = f_0_3 /\
  price_range pool = (F64.mul (spot_price pool) f_0_95, F64.mul (spot_price pool) f_1_05).
Proof.
  unfold __init__. intros Hinit.
  repeat match type of Hinit with
         | (mbind _ ?r) = Ok _ => destruct r; simpl in Hinit; [|discriminate]
         end.
  injection Hinit as <-. simpl. split; reflexivity.
Qed.

(** C4. Starting from a freshly constructed pool, after every call of every
    finite series of calls, whatever the volume frames, the fee satisfies
    [0.05 <= fee_tier <= 1.0]. *)
Theorem fee_always_clamped `{!PyRuntime}
    (pool_data : gmap string pyval) (pool : LiquidityPool) (frames : list DataFrame) :
  __init__ pool_data = Ok pool ->
  Forall (fun p => F64.leb f_0_05 (fee_tier p) = true /\ F64.leb (fee_tier p) f_1_0 = true)
    (pool_trace pool frames).
Proof.
  intros Hinit. apply init_fee in Hinit as [Hfee _].
  assert (Horbit : Forall (fun p => fee_tier p ∈ fee_orbit) (pool_trace pool frames)).
  { apply (pool_trace_invariant _ (fun _ => True)).
    - intros p volume_data Hp _. apply fee_orbit_call, Hp.
    - rewrite Hfee. apply fee_orbit_start.
    - apply Forall_forall. intros; exact I. }
  eapply Forall_impl; [exact Horbit|].
  intros p Hp. apply fee_orbit_in_bounds in Hp.
  unfold fee_in_bounds in Hp. apply andb_true_iff in Hp. exact Hp.
Qed.

Lemma fee_always_clamped_witness :
  __init__ (H := Reference.runtime) Samples.snapshot = Ok Samples.fresh /\
  Forall (fun p => F64.leb f_0_05 (fee_tier p) = true /\ F64.leb (fee_tier p) f_1_0 = true)
    (pool_trace (H := Reference.runtime) Samples.fresh
       [Samples.busy; Samples.quiet; Samples.no_frame]).
Proof.
  assert (Hinit : __init__ (H := Reference.runtime) Samples.snapshot = Ok Samples.fresh)
    by (vm_compute; reflexivity).
  split; [exact Hinit|].
  exact (fee_always_clamped (H := Reference.runtime) Samples.snapshot Samples.fresh
           [Samples.busy; Samples.quiet; Samples.no_frame] Hinit).
Defined.

(** ** The price range under narrowing *)

Lemma pool_after_low `{!PyRuntime} (pool : LiquidityPool) (volume_data : DataFrame) :
  low_volume volume_data ->
  pool_after pool volume_data = low_step pool /\
  is_Ok (outcome pool volume_data) = true.
Proof.
  intros Hlow. red in Hlow. apply ltb_not_geb in Hlow.
  unfold pool_after, outcome. rewrite (call_low pool volume_data Hlow).
  split; reflexivity.
Qed.

Lemma low_trace_last `{!PyRuntime} (frames : list DataFrame) :
  forall (pool : LiquidityPool) (volume_data : DataFrame),
    Forall low_volume (volume_data :: frames) ->
    last (pool_trace pool (volume_data :: frames)) =
      Some (Nat.iter (S (length frames)) low_step pool).
Proof.
  induction frames as [|next rest IH]; intros pool volume_data Hlow;
    inversion Hlow as [|? ? Hhead Htail]; subst;
    destruct (pool_after_low pool volume_data Hhead) as [Hafter Hok].
  - simpl. rewrite Hafter, Hok. reflexivity.
  - change (pool_trace pool (volume_data :: next :: rest))
      with (pool_after pool volume_data ::
            (if is_Ok (outcome pool volume_data)
             then pool_trace (pool_after pool volume_data) (next :: rest) else [])).
    rewrite Hok, Hafter.
    assert (Hcons : forall (p : LiquidityPool) (l : list LiquidityPool),
               l <> [] -> last (p :: l) = last l).
    { intros p [|q l] Hl; [congruence|reflexivity]. }
    rewrite Hcons by (simpl; discriminate).
    rewrite (IH (low_step pool) next Htail).
    rewrite (Nat.iter_succ_r (S (length rest))). reflexivity.
Qed.

(** C5, as amended. Narrowing does not keep the range ordered: thirteen
    consecutive low-volume calls on the pool built at spot price 5.0, whose
    range starts ordered, leave it with [lower > upper]; and one low-volume
    call inverts every range with [lower + 0.02 > upper - 0.02]. *)
Theorem narrowing_inverts_range `{!PyRuntime} :
  (forall (volume_data : DataFrame) (frames : list DataFrame),
      length frames = 12%nat ->
      Forall low_volume (volume_data :: frames) ->
      ordered Samples.fresh = true /\
      exists pool',
        last (pool_trace Samples.fresh (volume_data :: frames)) = Some pool' /\
        inverted pool' = true) /\
  (forall (pool : LiquidityPool) (volume_data : DataFrame),
      low_volume volume_data ->
      F64.gtb (F64.add (fst (price_range pool)) f_0_02)
              (F64.sub (snd (price_range pool)) f_0_02) = true ->
      inverted (pool_after pool volume_data) = true).
Proof.
  split.
  - intros volume_data frames Hlen Hlow.
    split; [vm_compute; reflexivity|].
    eexists. split; [apply (low_trace_last frames Samples.fresh volume_data Hlow)|].
    rewrite Hlen. vm_compute. reflexivity.
  - intros pool volume_data Hlow Hgt.
    destruct (pool_after_low pool volume_data Hlow) as [-> _].
    exact Hgt.
Qed.

Lemma narrowing_inverts_range_witness :
  let narrow := Samples.pool_with 6 6 f_0_3 f_1_0 (F64.decimal 103 2) in
  low_volume (H := Reference.runtime) Samples.quiet /\
  ordered narrow = true /\
  inverted (pool_after (H := Reference.runtime) narrow Samples.quiet) = true.
Proof.
  intros narrow.
  assert (Hlow : low_volume (H := Reference.runtime) Samples.quiet)
    by (vm_compute; reflexivity).
  assert (Hgt : F64.gtb (F64.add (fst (price_range narrow)) f_0_02)
                        (F64.sub (snd (price_range narrow)) f_0_02) = true)
    by (vm_compute; reflexivity).
  split; [exact Hlow|]. split; [vm_compute; reflexivity|].
  exact (proj2 (narrowing_inverts_range (H := Reference.runtime)) narrow Samples.quiet Hlow Hgt).
Defined.

(** C5 fails as stated: the ordered range (0.0, 0.04) has width 0.04, and
    one low-volume call makes it (0.02, 0.02), with [lower == upper] and not
    [lower > upper]. *)
Lemma narrowing_collapses_at_width_0_04 :
  let pool := Samples.pool_with 6 6 f_0_3 (S754_zero false) f_0_04 in
  low_volume (H := Reference.runtime) Samples.quiet /\
  ordered pool = true /\
  F64.leb (F64.sub (snd (price_range pool)) (fst (price_range pool))) f_0_04 = true /\
  price_range (pool_after (H := Reference.runtime) pool Samples.quiet) = (f_0_02, f_0_02) /\
  inverted (pool_after (H := Reference.runtime) pool Samples.quiet) = false.
Proof.
  vm_compute. repeat split; reflexivity.
Qed.

(** ** Rounding to a double

    What [binary_round_aux] does to a positive mantissa that has to be
    shifted: the mantissa it keeps is within half a unit in the last place
    of the exact value, and the result is in canonical form. *)

Lemma digits2_pos_bounds (p : positive) :
  2 ^ (Z.pos (digits2_pos p) - 1) <= Z.pos p < 2 ^ Z.pos (digits2_pos p).
Proof.
  induction p as [p IH|p IH|]; simpl digits2_pos.
  - rewrite Pos2Z.inj_succ.
    replace (Z.succ (Z.pos (digits2_pos p)) - 1) with (Z.succ (Z.pos (digits2_pos p) - 1)) by lia.
    rewrite !Z.pow_succ_r by lia. lia.
  - rewrite Pos2Z.inj_succ.
    replace (Z.succ (Z.pos (digits2_pos p)) - 1) with (Z.succ (Z.pos (digits2_pos p) - 1)) by lia.
    rewrite !Z.pow_succ_r by lia. lia.
  - simpl. lia.
Qed.

Lemma shr_1_nonneg (m : Z) (r s : bool) :
  0 <= m ->
  shr_1 {| shr_m := m; shr_r := r; shr_s := s |} =
    {| shr_m := Z.div2 m; shr_r := Z.odd m; shr_s := r || s |}.
Proof.
  intros Hm. destruct m as [|[p|p|]|p]; try reflexivity. lia.
Qed.

Lemma shr_1_inv (P k : Z) (mrs : shr_record) :
  0 <= k -> shr_inv P k mrs -> shr_inv P (k + 1) (shr_1 mrs).
Proof.
  intros Hk. destruct mrs as [m r s]. unfold shr_inv, loc_ok.
  cbn [shr_m shr_r shr_s]. intros [Hm [Hrem Hloc]].
  rewrite (shr_1_nonneg m r s Hm). cbn [shr_m shr_r shr_s].
  assert (Hpow : 2 ^ (k + 1) = 2 * 2 ^ k) by (rewrite Z.pow_add_r by lia; lia).
  assert (Hpos : 0 < 2 ^ k) by (apply Z.pow_pos_nonneg; lia).
  rewrite Hpow. generalize dependent (2 ^ k). intros X Hrem Hloc _ HX.
  pose proof (Z.div2_odd m) as Hdiv.
  destruct (Z.odd m); cbn [Z.b2z] in Hdiv; destruct r, s; cbn [orb]; nia.
Qed.

Lemma iter_pos_inv (P : Z) (p : positive) :
  forall (k : Z) (mrs : shr_record),
    0 <= k -> shr_inv P k mrs -> shr_inv P (k + Z.pos p) (SpecFloat.iter_pos shr_1 p mrs).
Proof.
  induction p as [p IH|p IH|]; intros k mrs Hk Hinv; simpl.
  - replace (k + Z.pos p~1) with (k + 1 + Z.pos p + Z.pos p) by lia.
    apply IH; [lia|]. apply IH; [lia|]. apply shr_1_inv; assumption.
  - replace (k + Z.pos p~0) with (k + Z.pos p + Z.pos p) by lia.
    apply IH; [lia|]. apply IH; assumption.
  - apply shr_1_inv; assumption.
Qed.

Lemma round_nearest_even_inv (P k : Z) (mrs : shr_record) :
  0 <= k -> shr_inv P k mrs ->
  let q := round_nearest_even (shr_m mrs) (loc_of_shr_record mrs) in
  0 <= q /\ 2 * q * 2 ^ k - 2 ^ k <= 2 * P <= 2 * q * 2 ^ k + 2 ^ k.
Proof.
  intros Hk. destruct mrs as [m r s]. unfold shr_inv, loc_ok.
  cbn [shr_m shr_r shr_s]. intros [Hm [Hrem Hloc]].
  assert (Hpos : 0 < 2 ^ k) by (apply Z.pow_pos_nonneg; lia).
  generalize dependent (2 ^ k). intros X Hrem Hloc HX.
  destruct r, s; cbn [loc_of_shr_record round_nearest_even];
    try (destruct (Z.even m)); nia.
Qed.

Lemma digits_le_53 (q : positive) : Z.pos q < 2 ^ 53 -> Z.pos (digits2_pos q) <= 53.
Proof.
  intros Hq. pose proof (digits2_pos_bounds q) as [Hlo _].
  assert (H : 2 ^ (Z.pos (digits2_pos q) - 1) < 2 ^ 53) by lia.
  apply Z.pow_lt_mono_r_iff in H; lia.
Qed.

Lemma digits_ge (q : positive) (d : Z) : 0 <= d -> 2 ^ d <= Z.pos q -> d < Z.pos (digits2_pos q).
Proof.
  intros Hd Hq. pose proof (digits2_pos_bounds q) as [_ Hhi].
  assert (H : 2 ^ d < 2 ^ Z.pos (digits2_pos q)) by lia.
  apply Z.pow_lt_mono_r_iff in H; lia.
Qed.

Lemma shr_fexp_shift (m : Z) (ex : Z) (n : positive) :
  0 <= m ->
  fexp 53 1024 (Zdigits2 m + ex) - ex = Z.pos n ->
  exists mrs,
    shr_fexp 53 1024 m ex loc_Exact = (mrs, ex + Z.pos n) /\
    shr_inv m (Z.pos n) mrs.
Proof.
  intros Hm Hn. unfold shr_fexp. rewrite Hn. cbn [shr shr_record_of_loc].
  eexists. split; [reflexivity|].
  apply (iter_pos_inv m n 0); [lia|].
  unfold shr_inv, loc_ok. cbn [shr_m shr_r shr_s]. change (2 ^ 0) with 1. lia.
Qed.

Lemma shr_fexp_stay (m : Z) (ex : Z) :
  fexp 53 1024 (Zdigits2 m + ex) - ex <= 0 ->
  shr_fexp 53 1024 m ex loc_Exact = ({| shr_m := m; shr_r := false; shr_s := false |}, ex).
Proof.
  intros Hn. unfold shr_fexp. cbn [shr_record_of_loc].
  destruct (fexp 53 1024 (Zdigits2 m + ex) - ex); try reflexivity. lia.
Qed.

Lemma fexp_eq (x : Z) : fexp 53 1024 x = Z.max (x - 53) (-1074).
Proof. reflexivity. Qed.

Lemma round_aux_spec (P : positive) (ex : Z) :
  let d := Z.pos (digits2_pos P) in
  let e1 := Z.max (d + ex - 53) (-1074) in
  ex < e1 ->
  exists q e2 : Z,
    0 <= q /\ e1 <= e2 <= e1 + 1 /\
    2 * q * 2 ^ (e2 - ex) - 2 ^ (e1 - ex) <= 2 * Z.pos P
      <= 2 * q * 2 ^ (e2 - ex) + 2 ^ (e1 - ex) /\
    (0 < q -> canonical_mantissa 53 1024 (Z.to_pos q) e2 = true) /\
    binary_round_aux 53 1024 false (Z.pos P) ex loc_Exact =
      match q with
      | Z0 => S754_zero false
      | Z.pos m => if e2 <=? 971 then S754_finite false m e2 else S754_infinity false
      | Z.neg _ => S754_nan
      end.
Proof.
  intros d e1 Hshift.
  pose proof (digits2_pos_bounds P) as [HPlo HPhi]. fold d in HPlo, HPhi.
  assert (Hd : 1 <= d) by (unfold d; lia).
  destruct (e1 - ex) as [|n|n] eqn:Hn; try lia.
  destruct (shr_fexp_shift (Z.pos P) ex n) as (mrs & Hshr & Hinv); [lia| |].
  { rewrite fexp_eq. exact Hn. }
  pose proof (round_nearest_even_inv (Z.pos P) (Z.pos n) mrs ltac:(lia) Hinv) as Hq.
  unfold binary_round_aux. rewrite Hshr.
  set (q := round_nearest_even (shr_m mrs) (loc_of_shr_record mrs)) in *.
  cbv zeta in Hq. destruct Hq as [Hq0 Hq].
  replace (ex + Z.pos n) with e1 by lia.
  assert (Hpn : 0 < 2 ^ Z.pos n) by (apply Z.pow_pos_nonneg; lia).
  (* the mantissa after rounding has at most 54 digits *)
  assert (Hqhi : q <= 2 ^ 53).
  { destruct (Z.le_gt_cases q (2 ^ 53)) as [|Hbig]; [assumption|exfalso].
    assert (Hdn : d <= 53 + Z.pos n) by lia.
    assert (2 ^ d <= 2 ^ (53 + Z.pos n)) by (apply Z.pow_le_mono_r; lia).
    rewrite Z.pow_add_r in * by lia. nia. }
  destruct (Z.eq_dec q (2 ^ 53)) as [Hcarry|Hnocarry].
  - (* the rounding carried into a 54th digit *)
    assert (He1 : e1 = d + ex - 53).
    { destruct (Z.max_spec (d + ex - 53) (-1074)) as [[Hlt Hmax]|[Hge Hmax]];
        fold e1 in Hmax; [|assumption]. exfalso.
      assert (Hdn : d <= 52 + Z.pos n) by lia.
      assert (2 ^ d <= 2 ^ (52 + Z.pos n)) by (apply Z.pow_le_mono_r; lia).
      rewrite Z.pow_add_r in * by lia. nia. }
    exists (2 ^ 52), (e1 + 1). rewrite Hcarry.
    split; [lia|]. split; [lia|]. split.
    { replace (e1 + 1 - ex) with (Z.pos n + 1) by lia.
      rewrite Z.pow_add_r by lia. rewrite Hcarry in Hq. lia. }
    split.
    { intros _. unfold canonical_mantissa. rewrite fexp_eq.
      change (Z.pos (digits2_pos (Z.to_pos (2 ^ 52)))) with 53.
      apply Z.eqb_eq. lia. }
    assert (Hsh : shr_fexp 53 1024 (2 ^ 53) e1 loc_Exact =
                  ({| shr_m := 2 ^ 52; shr_r := false; shr_s := false |}, e1 + 1)).
    { unfold shr_fexp. rewrite fexp_eq.
      change (Zdigits2 (2 ^ 53)) with 54.
      replace (Z.max (54 + e1 - 53) (-1074) - e1) with 1 by lia.
      reflexivity. }
    rewrite Hsh. cbn [shr_m]. reflexivity.
  - (* no carry: the rounded mantissa is kept as it is *)
    exists q, e1.
    split; [assumption|]. split; [lia|]. split.
    { rewrite Hn. lia. }
    assert (Hcanon : 0 < q -> fexp 53 1024 (Zdigits2 q + e1) = e1).
    { intros Hpos. destruct q as [|qm|qm]; try lia. cbn [Zdigits2].
      rewrite fexp_eq.
      pose proof (digits_le_53 qm ltac:(lia)) as Hdq.
      destruct (Z.max_spec (d + ex - 53) (-1074)) as [[Hlt Hmax]|[Hge Hmax]];
        fold e1 in Hmax.
      - lia.
      - assert (52 < Z.pos (digits2_pos qm)); [|lia].
        apply digits_ge; [lia|].
        assert (Hdn : d - 1 = 52 + Z.pos n) by lia.
        rewrite Hdn, Z.pow_add_r in HPlo by lia. nia. }
    split.
    { intros Hpos. unfold canonical_mantissa.
      specialize (Hcanon Hpos). destruct q as [|qm|qm]; try lia.
      cbn [Zdigits2 Z.to_pos] in *. apply Z.eqb_eq. exact Hcanon. }
    destruct q as [|qm|qm] eqn:Eq; try lia.
    + rewrite shr_fexp_stay; [reflexivity|].
      cbn [Zdigits2]. rewrite fexp_eq. lia.
    + rewrite shr_fexp_stay; [reflexivity|].
      rewrite Hcanon by lia. lia.
Qed.

(** Finite positive doubles in canonical form compare as their values. *)
Lemma canonical_digits (q : positive) (e : Z) :
  canonical_mantissa 53 1024 q e = true ->
  -1074 <= e /\ Z.pos q < 2 ^ 53 /\ (-1074 < e -> 2 ^ 52 <= Z.pos q).
Proof.
  unfold canonical_mantissa. rewrite fexp_eq. intros H. apply Z.eqb_eq in H.
  pose proof (digits2_pos_bounds q) as [Hlo Hhi].
  assert (Hd : Z.pos (digits2_pos q) <= 53) by lia.
  split; [lia|]. split.
  - assert (2 ^ Z.pos (digits2_pos q) <= 2 ^ 53) by (apply Z.pow_le_mono_r; lia). lia.
  - intros He. assert (Hd' : Z.pos (digits2_pos q) = 53) by lia.
    rewrite Hd' in Hlo. exact Hlo.
Qed.

Lemma compare_canonical (q1 q2 : positive) (e1 e2 b : Z) :
  canonical_mantissa 53 1024 q1 e1 = true ->
  canonical_mantissa 53 1024 q2 e2 = true ->
  b <= e1 -> b <= e2 ->
  Z.pos q1 * 2 ^ (e1 - b) < Z.pos q2 * 2 ^ (e2 - b) ->
  SFcompare (S754_finite false q1 e1) (S754_finite false q2 e2) = Some Lt.
Proof.
  intros H1 H2 Hb1 Hb2 Hlt.
  apply canonical_digits in H1 as (Hm1 & Hhi1 & Hlo1).
  apply canonical_digits in H2 as (Hm2 & Hhi2 & Hlo2).
  cbn [SFcompare].
  destruct (Z.compare_spec e1 e2) as [Heq|Hlt12|Hgt12].
  - subst e2. assert (Hp : 0 < 2 ^ (e1 - b)) by (apply Z.pow_pos_nonneg; lia).
    assert (Hq : Z.pos q1 < Z.pos q2) by (apply (Z.mul_lt_mono_pos_r (2 ^ (e1 - b))); assumption).
    rewrite Pos.compare_cont_spec. cbn [Pos.switch_Eq].
    apply Pos2Z.pos_lt_pos in Hq. rewrite (proj2 (Pos.compare_lt_iff q1 q2) Hq). reflexivity.
  - reflexivity.
  - exfalso. specialize (Hlo1 ltac:(lia)).
    replace (e1 - b) with ((e1 - e2) + (e2 - b)) in Hlt by lia.
    rewrite Z.pow_add_r in Hlt by lia.
    assert (Hp : 0 < 2 ^ (e2 - b)) by (apply Z.pow_pos_nonneg; lia).
    assert (H2' : 2 ^ 1 <= 2 ^ (e1 - e2)) by (apply Z.pow_le_mono_r; lia).
    change (2 ^ 1) with 2 in H2'.
    assert (2 * 2 ^ 52 * 2 ^ (e2 - b) <= Z.pos q1 * (2 ^ (e1 - e2) * 2 ^ (e2 - b))).
    { rewrite Z.mul_assoc. apply Z.mul_le_mono_nonneg_r; [lia|]. nia. }
    assert (Z.pos q2 * 2 ^ (e2 - b) < 2 ^ 53 * 2 ^ (e2 - b)).
    { apply Z.mul_lt_mono_pos_r; assumption. }
    change (2 ^ 53) with (2 * 2 ^ 52) in *. lia.
Qed.

Lemma digits_le (q : positive) (k : Z) : 0 <= k -> Z.pos q < 2 ^ k -> Z.pos (digits2_pos q) <= k.
Proof.
  intros Hk Hq. pose proof (digits2_pos_bounds q) as [Hlo _].
  assert (H : 2 ^ (Z.pos (digits2_pos q) - 1) < 2 ^ k) by lia.
  apply Z.pow_lt_mono_r_iff in H; lia.
Qed.

(** The exponent the product of [m * 2 ^ e] and a 53-bit constant is rounded
    at, against the product itself. *)
Lemma ulp_of_product (m c : positive) (ex : Z) :
  2 <= Z.pos m < 2 ^ 53 -> 2 ^ 52 <= Z.pos c < 2 ^ 53 -> -1074 - 53 <= ex ->
  let e1 := Z.max (Z.pos (digits2_pos (m * c)) + ex - 53) (-1074) in
  ex < e1 /\
  (2 ^ 52 <= Z.pos m -> 2 ^ (e1 - ex) * 2 ^ 52 <= Z.pos (m * c) + 2 ^ 105) /\
  (Z.pos m < 2 ^ 52 -> ex <= -1074 - 52 -> e1 = -1074).
Proof.
  intros Hm Hc Hex e1.
  pose proof (digits2_pos_bounds (m * c)) as [Hlo Hhi].
  rewrite Pos2Z.inj_mul in *.
  set (d := Z.pos (digits2_pos (m * c))) in *.
  assert (Hd54 : 53 < d).
  { apply digits_ge; [lia|]. rewrite Pos2Z.inj_mul. change (2 ^ 53) with (2 * 2 ^ 52). nia. }
  assert (Hd106 : d <= 106).
  { apply digits_le; [lia|]. rewrite Pos2Z.inj_mul.
    change (2 ^ 106) with (2 ^ 53 * 2 ^ 53). nia. }
  split; [lia|]. split.
  - intros Hnormal.
    destruct (Z.max_spec (d + ex - 53) (-1074)) as [[_ Hmax]|[_ Hmax]]; fold e1 in Hmax;
      rewrite Hmax.
    + assert (H : 2 ^ (-1074 - ex) <= 2 ^ 53) by (apply Z.pow_le_mono_r; lia).
      change (2 ^ 105) with (2 ^ 53 * 2 ^ 52). nia.
    + replace (d + ex - 53 - ex) with (d - 53) by lia.
      rewrite <- Z.pow_add_r by lia. replace (d - 53 + 52) with (d - 1) by lia.
      assert (0 < 2 ^ 105) by reflexivity. lia.
  - intros Hsub Hex'.
    assert (Hd105 : d <= 105).
    { apply digits_le; [lia|]. rewrite Pos2Z.inj_mul.
      change (2 ^ 105) with (2 ^ 52 * 2 ^ 53). nia. }
    lia.
Qed.

Lemma product_range_ordered (m : positive) (e : Z) :
  bounded 53 1024 m e = true ->
  (-1074 < e \/ 10 <= Z.pos m) ->
  F64.ltb (F64.mul (S754_finite false m e) f_0_95)
          (F64.mul (S754_finite false m e) f_1_05) = true.
Proof.
  intros Hb Hdom. unfold bounded in Hb. apply andb_true_iff in Hb as [Hcan Hemax].
  apply Z.leb_le in Hemax. change (1024 - 53) with 971 in Hemax.
  apply canonical_digits in Hcan as (Hemin & Hmhi & Hmlo).
  assert (Hm2 : 2 <= Z.pos m < 2 ^ 53).
  { destruct Hdom as [He|]; [specialize (Hmlo He)|]; lia. }
  unfold F64.ltb, F64.mul, f_0_95, f_1_05. cbn [SFmul xorb].
  change F64.prec with 53. change F64.emax with 1024.
  set (cl := 8556839292003942%positive). set (cu := 4728779608739021%positive).
  set (b := e + -53). replace (e + -52) with (b + 1) by lia.
  (* the two roundings *)
  pose proof (ulp_of_product m cl b Hm2 ltac:(unfold cl; lia) ltac:(lia)) as (HshL & HnL & HsL).
  pose proof (ulp_of_product m cu (b + 1) Hm2 ltac:(unfold cu; lia) ltac:(lia))
    as (HshU & HnU & HsU).
  destruct (round_aux_spec (m * cl) b HshL) as (qL & e2L & HqL & HeL & HvL & HcL & ->).
  destruct (round_aux_spec (m * cu) (b + 1) HshU) as (qU & e2U & HqU & HeU & HvU & HcU & ->).
  set (e1L := Z.max (Z.pos (digits2_pos (m * cl)) + b - 53) (-1074)) in *.
  set (e1U := Z.max (Z.pos (digits2_pos (m * cu)) + (b + 1) - 53) (-1074)) in *.
  rewrite Pos2Z.inj_mul in *.
  assert (HEL : 0 < 2 ^ (e1L - b)) by (apply Z.pow_pos_nonneg; lia).
  assert (HEU : 0 < 2 ^ (e1U - (b + 1))) by (apply Z.pow_pos_nonneg; lia).
  (* the rounding errors are below the gap between the two products *)
  assert (Hgap : 2 ^ (e1L - b) + 2 * 2 ^ (e1U - (b + 1)) <
                 4 * (Z.pos m * Z.pos cu) - 2 * (Z.pos m * Z.pos cl)).
  { destruct (Z.le_gt_cases (2 ^ 52) (Z.pos m)) as [Hnormal|Hsub].
    - specialize (HnL Hnormal). specialize (HnU Hnormal).
      clear - HnL HnU Hnormal HEL HEU.
      generalize dependent (2 ^ (e1L - b)). generalize dependent (2 ^ (e1U - (b + 1))).
      intros EU HnU HEU EL HnL HEL. unfold cl, cu in *.
      change (2 ^ 105) with 40564819207303340847894502572032 in *.
      change (2 ^ 52) with 4503599627370496 in *. lia.
    - assert (He : e = -1074) by lia.
      rewrite (HsL Hsub ltac:(lia)), (HsU Hsub ltac:(lia)).
      replace (-1074 - b) with 53 by lia. replace (-1074 - (b + 1)) with 52 by lia.
      unfold cl, cu. change (2 ^ 53) with 9007199254740992.
      change (2 ^ 52) with 4503599627370496. clear - Hdom He. lia. }
  assert (Hvalues : qL * 2 ^ (e2L - b) < qU * 2 ^ (e2U - b)).
  { replace (e2U - b) with (e2U - (b + 1) + 1) by lia.
    rewrite Z.pow_add_r by lia. change (2 ^ 1) with 2.
    rewrite <- !Z.mul_assoc in HvL, HvU. rewrite Z.mul_assoc.
    clear - HvL HvU Hgap.
    generalize dependent (2 ^ (e1L - b)). generalize dependent (2 ^ (e1U - (b + 1))).
    generalize dependent (qL * 2 ^ (e2L - b)).
    generalize dependent (qU * 2 ^ (e2U - (b + 1))).
    intros. lia. }
  assert (HqUpos : 0 < qU).
  { destruct (Z.eq_dec qU 0) as [->|]; [|lia].
    assert (0 <= qL * 2 ^ (e2L - b)) by (apply Z.mul_nonneg_nonneg; [lia|apply Z.pow_nonneg; lia]).
    lia. }
  (* the lower product does not overflow *)
  assert (HfinL : 0 < qL -> e2L <= 971).
  { intros HqLpos. destruct (Z.le_gt_cases e2L e) as [|Hbig]; [lia|exfalso].
    specialize (HcL HqLpos). apply canonical_digits in HcL as (_ & _ & HqLlo).
    specialize (HqLlo ltac:(lia)). rewrite Z2Pos.id in HqLlo by lia.
    pose proof (digits_le (m * cl) 106 ltac:(lia)) as Hd.
    rewrite Pos2Z.inj_mul in Hd.
    assert (HdL : Z.pos (digits2_pos (m * cl)) <= 106).
    { apply Hd. unfold cl. clear - Hmhi.
      change (2 ^ 106) with 81129638414606681695789005144064.
      change (2 ^ 53) with 9007199254740992 in Hmhi. lia. }
    assert (He1 : e1L <= e) by (unfold e1L, b; lia).
    assert (He2 : e2L = e + 1) by lia.
    assert (He1' : e1L = e) by lia.
    rewrite He2, He1' in HvL. unfold b in HvL.
    replace (e + 1 - (e + -53)) with 54 in HvL by lia.
    replace (e - (e + -53)) with 53 in HvL by lia.
    unfold cl in HvL. change (2 ^ 54) with 18014398509481984 in HvL.
    change (2 ^ 53) with 9007199254740992 in *. change (2 ^ 52) with 4503599627370496 in *.
    clear - HvL HqLlo Hmhi. lia. }
  unfold SFltb.
  destruct qU as [|mU|mU]; try lia.
  specialize (HcU ltac:(lia)). cbn [Z.to_pos] in HcU.
  destruct qL as [|mL|mL]; [| |lia].
  - destruct (e2U <=? 971); reflexivity.
  - specialize (HcL ltac:(lia)). cbn [Z.to_pos] in HcL.
    specialize (HfinL ltac:(lia)). apply Z.leb_le in HfinL. rewrite HfinL.
    destruct (e2U <=? 971); [|reflexivity].
    rewrite (compare_canonical mL mU e2L e2U b HcL HcU); [reflexivity| | |exact Hvalues].
    + unfold e1L in HeL. lia.
    + unfold e1U in HeU. lia.
Qed.

(** ** Reserves that can be boosted *)

(** The sign of the operand only sets the sign of the rounded result. *)
Lemma round_aux_sign (sx : bool) (P : Z) (ex : Z) (l : location) :
  binary_round_aux 53 1024 sx P ex l =
  match binary_round_aux 53 1024 false P ex l with
  | S754_zero _ => S754_zero sx
  | S754_infinity _ => S754_infinity sx
  | S754_finite _ m e => S754_finite sx m e
  | S754_nan => S754_nan
  end.
Proof.
  unfold binary_round_aux.
  destruct (shr_fexp 53 1024 P ex l) as [mrs' e'].
  destruct (shr_fexp 53 1024 _ e' loc_Exact) as [mrs'' e''].
  destruct (shr_m mrs''); try reflexivity.
  destruct (e'' <=? 1024 - 53); reflexivity.
Qed.

(** Shifting a mantissa left. *)
Lemma iter_xO (p : positive) (k : positive) :
  Z.pos (Pos.iter xO p k) = Z.pos p * 2 ^ Z.pos k.
Proof.
  revert p. induction k using Pos.peano_ind; intros p.
  - simpl. lia.
  - rewrite Pos.iter_succ, Pos2Z.inj_succ, Z.pow_succ_r by lia.
    rewrite Pos2Z.inj_xO, IHk. lia.
Qed.

(** A mantissa that is already in canonical form is kept as it is. *)
Lemma round_aux_stay (sx : bool) (m : positive) (ex : Z) :
  fexp 53 1024 (Z.pos (digits2_pos m) + ex) = ex -> ex <= 971 ->
  binary_round_aux 53 1024 sx (Z.pos m) ex loc_Exact = S754_finite sx m ex.
Proof.
  intros Hcanon Hex. unfold binary_round_aux.
  rewrite shr_fexp_stay by (cbn [Zdigits2]; lia).
  cbn [shr_m loc_of_shr_record round_nearest_even].
  rewrite shr_fexp_stay by (cbn [Zdigits2]; lia).
  cbn [shr_m]. change (1024 - 53) with 971.
  rewrite (proj2 (Z.leb_le ex 971) Hex). reflexivity.
Qed.

(** The double nearest to an integer below [2 ^ 1021] in magnitude is
    finite, normal, and has an exponent of at most 969. *)
Lemma binary_round_int (sx : bool) (p : positive) :
  Z.pos p < 2 ^ 1021 ->
  exists (m : positive) (e : Z),
    binary_round 53 1024 sx p 0 = S754_finite sx m e /\
    2 ^ 52 <= Z.pos m < 2 ^ 53 /\ -52 <= e <= 969.
Proof.
  intros Hp. unfold binary_round.
  pose proof (digits2_pos_bounds p) as [Hlo Hhi].
  pose proof (digits_le p 1021 ltac:(lia) Hp) as Hd.
  set (d := Z.pos (digits2_pos p)) in *.
  assert (Hd1 : 1 <= d) by (unfold d; lia).
  replace (d + 0) with d by lia. rewrite fexp_eq.
  replace (Z.max (d - 53) (-1074)) with (d - 53) by lia.
  unfold shl_align. replace (d - 53 - 0) with (d - 53) by lia.
  destruct (d - 53) as [|k|k] eqn:Hk.
  - (* 53 digits: kept as it is *)
    exists p, 0. rewrite round_aux_stay; [|fold d; rewrite fexp_eq; lia|lia].
    split; [reflexivity|]. replace (d - 1) with 52 in Hlo by lia.
    replace d with 53 in Hhi by lia. lia.
  - (* more than 53 digits: rounded *)
    rewrite round_aux_sign.
    destruct (round_aux_spec p 0) as (q & e2 & Hq & He2 & Hv & Hc & ->).
    { fold d. lia. }
    fold d in He2, Hv. replace (Z.max (d + 0 - 53) (-1074)) with (Z.pos k) in * by lia.
    rewrite !Z.sub_0_r in Hv.
    assert (Hpk : 0 < 2 ^ Z.pos k) by (apply Z.pow_pos_nonneg; lia).
    assert (Hqpos : 0 < q).
    { destruct (Z.eq_dec q 0) as [->|]; [exfalso|lia].
      assert (H : 2 ^ Z.pos k < 2 ^ (d - 1)) by (apply Z.pow_lt_mono_r; lia).
      lia. }
    specialize (Hc Hqpos). apply canonical_digits in Hc as (_ & Hqhi & Hqlo).
    specialize (Hqlo ltac:(lia)). rewrite Z2Pos.id in * by lia.
    destruct q as [|m|m]; try lia.
    exists m, e2. rewrite (proj2 (Z.leb_le e2 971)) by lia.
    split; [reflexivity|]. lia.
  - (* fewer than 53 digits: shifted left *)
    exists (Pos.iter xO p k), (Z.neg k).
    assert (Hm : Z.pos (Pos.iter xO p k) = Z.pos p * 2 ^ Z.pos k) by apply iter_xO.
    assert (Hpk : 0 < 2 ^ Z.pos k) by (apply Z.pow_pos_nonneg; lia).
    assert (Hbounds : 2 ^ 52 <= Z.pos (Pos.iter xO p k) < 2 ^ 53).
    { rewrite Hm. split.
      - replace 52 with (d - 1 + Z.pos k) by lia. rewrite Z.pow_add_r by lia.
        apply Z.mul_le_mono_nonneg_r; lia.
      - replace 53 with (d + Z.pos k) by lia. rewrite Z.pow_add_r by lia.
        apply Z.mul_lt_mono_pos_r; lia. }
    rewrite round_aux_stay; [| |lia].
    + split; [reflexivity|]. split; [exact Hbounds|]. lia.
    + rewrite fexp_eq.
      assert (Hdm : Z.pos (digits2_pos (Pos.iter xO p k)) = 53).
      { apply Z.le_antisymm.
        - apply digits_le_53. lia.
        - pose proof (digits_ge (Pos.iter xO p k) 52 ltac:(lia) ltac:(lia)). lia. }
      rewrite Hdm. lia.
Qed.

(** A normal double with an exponent of at most 969 times 1.1 is finite. *)
Lemma mul_1_1_finite (s : bool) (m : positive) (e : Z) :
  2 ^ 52 <= Z.pos m < 2 ^ 53 -> -1073 <= e <= 969 ->
  F64.is_finite (F64.mul (S754_finite s m e) f_1_1) = true.
Proof.
  intros Hm He. unfold F64.mul, f_1_1. cbn [SFmul].
  change F64.prec with 53. change F64.emax with 1024.
  rewrite round_aux_sign.
  set (c := 4953959590107546%positive).
  pose proof (ulp_of_product m c (e + -52) ltac:(lia) ltac:(unfold c; lia) ltac:(lia))
    as (Hshift & _ & _).
  destruct (round_aux_spec (m * c) (e + -52) Hshift) as (q & e2 & Hq & He2 & _ & _ & ->).
  pose proof (digits_le (m * c) 106 ltac:(lia)) as Hd.
  assert (Hd106 : Z.pos (digits2_pos (m * c)) <= 106).
  { apply Hd. rewrite Pos2Z.inj_mul. unfold c.
    change (2 ^ 106) with 81129638414606681695789005144064.
    change (2 ^ 53) with 9007199254740992 in Hm. lia. }
  destruct q as [|mq|mq]; try lia; [reflexivity|].
  rewrite (proj2 (Z.leb_le e2 971)) by lia. reflexivity.
Qed.

(** [int(r * 1.1)] does not raise for an int below [2 ^ 1021] in
    magnitude. *)
Lemma boosted_in_range (r : Z) :
  Z.abs r < 2 ^ 1021 -> is_Ok (boosted r) = true.
Proof.
  intros Hr. unfold boosted, int_mul_float, float_of_int, F64.of_Z, binary_normalize.
  destruct r as [|p|p].
  - reflexivity.
  - destruct (binary_round_int false p ltac:(lia)) as (m & e & Hround & Hm & He).
    change F64.prec with 53. change F64.emax with 1024. rewrite Hround.
    cbn [F64.is_finite result_bind mbind result_mbind].
    pose proof (mul_1_1_finite false m e Hm ltac:(lia)) as Hfin.
    destruct (F64.mul (S754_finite false m e) f_1_1); try discriminate; reflexivity.
  - destruct (binary_round_int true p ltac:(lia)) as (m & e & Hround & Hm & He).
    change F64.prec with 53. change F64.emax with 1024. rewrite Hround.
    cbn [F64.is_finite result_bind mbind result_mbind].
    pose proof (mul_1_1_finite true m e Hm ltac:(lia)) as Hfin.
    destruct (F64.mul (S754_finite true m e) f_1_1); try discriminate; reflexivity.
Qed.

(** ** The freshly constructed pool *)

Lemma init_ignores_other_keys `{!PyRuntime}
    (pool_data : gmap string pyval) (key : string) (value : pyval) :
  key ∉ init_keys ->
  __init__ (<[key := value]> pool_data) = __init__ pool_data.
Proof.
  intros Hkey. unfold init_keys in Hkey.
  unfold __init__, getitem.
  rewrite !lookup_insert_ne; [reflexivity| | | | | |];
    intros ->; apply Hkey; set_solver.
Qed.

Lemma leb_5e_323_finite (x : float) :
  valid_binary F64.prec F64.emax x = true ->
  F64.is_finite x = true ->
  F64.leb f_5e_323 x = true ->
  exists (m : positive) (e : Z),
    x = S754_finite false m e /\
    bounded 53 1024 m e = true /\ (-1074 < e \/ 10 <= Z.pos m).
Proof.
  intros Hvalid Hfinite Hleb.
  destruct x as [s|s| |s m e]; cbn in Hfinite; try discriminate.
  destruct s; [vm_compute in Hleb; discriminate|].
  exists m, e. split; [reflexivity|]. split; [exact Hvalid|].
  unfold F64.leb, SFleb, f_5e_323 in Hleb. cbn [SFcompare] in Hleb.
  destruct (Z.compare_spec (-1074) e) as [<-|Hlt|Hgt]; [right|left; lia|discriminate].
  rewrite Pos.compare_cont_spec in Hleb. cbn [Pos.switch_Eq] in Hleb.
  destruct (Pos.compare_spec 10 m) as [<-|H|H]; try lia; discriminate.
Qed.

(** C10, as amended. For every pool snapshot from which a pool is
    constructed, the pool has [fee_tier == 0.3] and
    [price_range == (spot_price * 0.95, spot_price * 1.05)], whatever other
    keys the snapshot holds; so it satisfies [0.05 <= fee_tier <= 1.0], and
    it satisfies [lower < upper] whenever the spot price is a finite double
    of at least [5e-323]. *)
Theorem fresh_pool_invariants `{!PyRuntime}
    (pool_data : gmap string pyval) (pool : LiquidityPool) :
  __init__ pool_data = Ok pool ->
  fee_tier pool = f_0_3 /\
  price_range pool = (F64.mul (spot_price pool) f_0_95, F64.mul (spot_price pool) f_1_05) /\
  (forall (key : string) (value : pyval),
      key ∉ init_keys -> __init__ (<[key := value]> pool_data) = Ok pool) /\
  F64.leb f_0_05 (fee_tier pool) = true /\
  F64.leb (fee_tier pool) f_1_0 = true /\
  (valid_binary F64.prec F64.emax (spot_price pool) = true ->
   F64.is_finite (spot_price pool) = true ->
   F64.leb f_5e_323 (spot_price pool) = true ->
   F64.ltb (fst (price_range pool)) (snd (price_range pool)) = true).
Proof.
  intros Hinit. destruct (init_fee pool_data pool Hinit) as [Hfee Hrange].
  split; [exact Hfee|]. split; [exact Hrange|]. split.
  { intros key value Hkey. rewrite (init_ignores_other_keys pool_data key value Hkey).
    exact Hinit. }
  rewrite Hfee. split; [vm_compute; reflexivity|]. split; [vm_compute; reflexivity|].
  intros Hvalid Hfinite Hleb.
  destruct (leb_5e_323_finite _ Hvalid Hfinite Hleb) as (m & e & Hspot & Hbounded & Hdom).
  rewrite Hrange, Hspot. cbn [fst snd].
  apply product_range_ordered; assumption.
Qed.

Lemma fresh_pool_invariants_witness :
  __init__ (H := Reference.runtime) Samples.snapshot = Ok Samples.fresh /\
  valid_binary F64.prec F64.emax (spot_price Samples.fresh) = true /\
  F64.is_finite (spot_price Samples.fresh) = true /\
  F64.leb f_5e_323 (spot_price Samples.fresh) = true /\
  F64.ltb (fst (price_range Samples.fresh)) (snd (price_range Samples.fresh)) = true.
Proof.
  assert (Hinit : __init__ (H := Reference.runtime) Samples.snapshot = Ok Samples.fresh)
    by (vm_compute; reflexivity).
  assert (Hvalid : valid_binary F64.prec F64.emax (spot_price Samples.fresh) = true)
    by (vm_compute; reflexivity).
  assert (Hfinite : F64.is_finite (spot_price Samples.fresh) = true)
    by (vm_compute; reflexivity).
  assert (Hleb : F64.leb f_5e_323 (spot_price Samples.fresh) = true)
    by (vm_compute; reflexivity).
  split; [exact Hinit|]. split; [exact Hvalid|]. split; [exact Hfinite|].
  split; [exact Hleb|].
  destruct (fresh_pool_invariants (H := Reference.runtime)
              Samples.snapshot Samples.fresh Hinit) as (_ & _ & _ & _ & _ & Hordered).
  exact (Hordered Hvalid Hfinite Hleb).
Defined.

(** C10 fails as stated: at the spot price [5e-324], which is positive,
    both [spot_price * 0.95] and [spot_price * 1.05] round to [5e-324], and
    the fresh pool has [lower == upper]. *)
Lemma fresh_pool_range_collapses :
  exists pool : LiquidityPool,
    __init__ (H := Reference.runtime) tiny_snapshot = Ok pool /\
    spot_price pool = S754_finite false 1 (-1074) /\
    F64.gtb (spot_price pool) (S754_zero false) = true /\
    price_range pool = (S754_finite false 1 (-1074), S754_finite false 1 (-1074)) /\
    F64.ltb (fst (price_range pool)) (snd (price_range pool)) = false.
Proof.
  eexists. split; [vm_compute; reflexivity|].
  cbn [spot_price price_range fst snd]. repeat split; vm_compute; reflexivity.
Qed.

(** Below [5e-323] the range of a fresh pool is never ordered. *)
Example fresh_range_unordered_below :
  Forall (fun m : positive =>
            F64.ltb (F64.mul (S754_finite false m (-1074)) f_0_95)
                    (F64.mul (S754_finite false m (-1074)) f_1_05) = false)
    [1; 2; 3; 4; 5; 6; 7; 8; 9]%positive.
Proof. repeat constructor. Qed.

(** * Further properties *)

(** A mantissa that is not negative stays so through [shr_fexp]. *)
Lemma shr_fexp_nonneg (m ex : Z) :
  0 <= m -> 0 <= shr_m (fst (shr_fexp 53 1024 m ex loc_Exact)).
Proof.
  intros Hm.
  destruct (fexp 53 1024 (Zdigits2 m + ex) - ex) as [|n|n] eqn:Hn.
  - rewrite shr_fexp_stay by lia. exact Hm.
  - destruct (shr_fexp_shift m ex n Hm Hn) as (mrs & -> & Hinv & _). exact Hinv.
  - rewrite shr_fexp_stay by lia. exact Hm.
Qed.

Lemma round_aux_not_nan (sx : bool) (P : positive) (ex : Z) :
  binary_round_aux 53 1024 sx (Z.pos P) ex loc_Exact <> S754_nan.
Proof.
  unfold binary_round_aux.
  destruct (shr_fexp 53 1024 (Z.pos P) ex loc_Exact) as [mrs' e'] eqn:H1.
  assert (Hq : 0 <= round_nearest_even (shr_m mrs') (loc_of_shr_record mrs')).
  { destruct (fexp 53 1024 (Zdigits2 (Z.pos P) + ex) - ex) as [|n|n] eqn:Hn.
    - rewrite shr_fexp_stay in H1 by lia. injection H1 as <- <-. simpl. lia.
    - destruct (shr_fexp_shift (Z.pos P) ex n ltac:(lia) Hn) as (mrs & Hs & Hinv).
      rewrite Hs in H1. injection H1 as <- <-.
      apply (round_nearest_even_inv (Z.pos P) (Z.pos n) mrs ltac:(lia) Hinv).
    - rewrite shr_fexp_stay in H1 by lia. injection H1 as <- <-. simpl. lia. }
  pose proof (shr_fexp_nonneg _ e' Hq) as Hnn.
  destruct (shr_fexp 53 1024 _ e' loc_Exact) as [mrs'' e'']. cbn [fst] in Hnn.
  destruct (shr_m mrs'') as [|m|m]; try discriminate; [|lia].
  destruct (e'' <=? 1024 - 53); discriminate.
Qed.

(** [int(r * 1.1)] raises nothing but [OverflowError]. *)
Lemma boosted_raises_overflow (r : Z) (e : exn) :
  boosted r = Raise e -> e = OverflowError.
Proof.
  unfold boosted, int_mul_float, float_of_int.
  destruct (F64.of_Z r) as [s|s| |s m ex] eqn:Hr; cbn; try congruence.
  unfold F64.mul, f_1_1. cbn [SFmul].
  pose proof (round_aux_not_nan (xorb s false) (m * 4953959590107546) (ex + -52)) as Hnan.
  change F64.prec with 53. change F64.emax with 1024.
  destruct (binary_round_aux 53 1024 _ _ _ loc_Exact); cbn; congruence.
Qed.

(** ** What a call leaves alone *)

(** X1. For every pool and every volume frame, a call of [ai_agent],
    whether it returns or raises, leaves [token_a], [token_b],
    [spot_price], [total_liquidity] and [pair_id] of the pool as they
    were. *)
Theorem call_keeps_identity `{!PyRuntime} (pool : LiquidityPool) (volume_data : DataFrame) :
  let pool' := pool_after pool volume_data in
  token_a pool' = token_a pool /\
  token_b pool' = token_b pool /\
  spot_price pool' = spot_price pool /\
  total_liquidity pool' = total_liquidity pool /\
  pair_id pool' = pair_id pool.
Proof.
  unfold pool_after.
  destruct (F64.geb (avg_volume_of volume_data) threshold) eqn:Hge.
  - destruct (boosted_cases (reserve_a pool) (reserve_b pool))
      as [(ra' & rb' & Ha & Hb)|[(e & Ha)|(ra' & e & Ha & Hb)]].
    + rewrite (call_high pool volume_data ra' rb' Hge Ha Hb). repeat split.
    + rewrite (call_high_raise_a pool volume_data e Hge Ha). repeat split.
    + rewrite (call_high_raise_b pool volume_data ra' e Hge Ha Hb). repeat split.
  - rewrite (call_low pool volume_data Hge). repeat split.
Qed.

(** ** The two embeddings of [ai_agent] *)

Lemma ai_agent_adjust `{!PyRuntime} (volume_data : DataFrame) :
  ai_agent volume_data = adjust (avg_volume_of volume_data).
Proof. reflexivity. Qed.

Lemma af_empty_any_of (df : DataFrame) : af_empty (any_of df) = df_empty df.
Proof.
  unfold af_empty, df_empty, any_of. cbn [af_rows af_columns]. f_equal.
  apply bool_decide_ext, fmap_empty_iff.
Qed.

Lemma avg_volume_any_of `{!PyRuntime} `{!PandasObjects} (df : DataFrame) :
  avg_volume_any (any_of df) = Ok (avg_volume_of df).
Proof.
  unfold avg_volume_any, avg_volume_of. rewrite af_empty_any_of.
  destruct (df_empty df); [reflexivity|]. cbn [negb andb].
  unfold df_contains, df_getitem, any_of. cbn [af_columns]. rewrite lookup_fmap.
  destruct (df_columns df !! "volume") as [xs|] eqn:Hcol; cbn.
  - reflexivity.
  - reflexivity.
Qed.

(** On a frame of floats the two embeddings of [ai_agent] agree. *)
Lemma call_any_of `{!PyRuntime} `{!PandasObjects} (pool : LiquidityPool) (df : DataFrame) :
  call_any pool (any_of df) = call pool df.
Proof.
  unfold call_any, ai_agent_any, call. rewrite avg_volume_any_of, ai_agent_adjust.
  reflexivity.
Qed.

(** ** A call on a frame of any kind, case by case *)

Section AnyCalls.

Context `{!PyRuntime} `{!PandasObjects}.

Variable pool : LiquidityPool.
Variable volume_data : AnyFrame.

Lemma call_any_mean_raises (e : exn) :
  avg_volume_any volume_data = Raise e ->
  call_any pool volume_data = ({| the_pool := pool; console := [] |}, Raise e).
Proof.
  intros Hraise. unfold call_any, ai_agent_any. run_cmd. rewrite Hraise. reflexivity.
Qed.

Lemma call_any_low (avg_volume : float) :
  avg_volume_any volume_data = Ok avg_volume ->
  F64.geb avg_volume threshold = false ->
  is_Ok (snd (call_any pool volume_data)) = true.
Proof.
  intros Havg Hlow. unfold call_any, ai_agent_any, adjust. run_cmd.
  rewrite Havg. simpl. rewrite Hlow.
  destruct pool as [ta tb ra rb sp fee [lower upper] tl pid]. reflexivity.
Qed.

Lemma call_any_high (avg_volume : float) (ra' rb' : Z) :
  avg_volume_any volume_data = Ok avg_volume ->
  F64.geb avg_volume threshold = true ->
  boosted (reserve_a pool) = Ok ra' ->
  boosted (reserve_b pool) = Ok rb' ->
  is_Ok (snd (call_any pool volume_data)) = true.
Proof.
  intros Havg Hhigh Ha Hb. unfold call_any, ai_agent_any, adjust. run_cmd.
  rewrite Havg. simpl. rewrite Hhigh.
  destruct pool as [ta tb ra rb sp fee [lower upper] tl pid]. simpl in *.
  rewrite Ha; simpl. rewrite Hb; simpl. reflexivity.
Qed.

Lemma call_any_high_raise_a (avg_volume : float) (e : exn) :
  avg_volume_any volume_data = Ok avg_volume ->
  F64.geb avg_volume threshold = true ->
  boosted (reserve_a pool) = Raise e ->
  call_any pool volume_data =
    ({| the_pool := pool; console := [HighVolumeLine avg_volume (fee_down pool)] |},
     Raise e).
Proof.
  intros Havg Hhigh Ha. unfold call_any, ai_agent_any, adjust, fee_down. run_cmd.
  rewrite Havg. simpl. rewrite Hhigh.
  destruct pool as [ta tb ra rb sp fee [lower upper] tl pid]. simpl in *.
  rewrite Ha; simpl. reflexivity.
Qed.

Lemma call_any_high_raise_b (avg_volume : float) (ra' : Z) (e : exn) :
  avg_volume_any volume_data = Ok avg_volume ->
  F64.geb avg_volume threshold = true ->
  boosted (reserve_a pool) = Ok ra' ->
  boosted (reserve_b pool) = Raise e ->
  call_any pool volume_data =
    ({| the_pool := set_reserve_a ra' pool;
        console := [HighVolumeLine avg_volume (fee_down pool)] |},
     Raise e).
Proof.
  intros Havg Hhigh Ha Hb. unfold call_any, ai_agent_any, adjust, fee_down. run_cmd.
  rewrite Havg. simpl. rewrite Hhigh.
  destruct pool as [ta tb ra rb sp fee [lower upper] tl pid]. simpl in *.
  rewrite Ha; simpl. rewrite Hb; simpl. reflexivity.
Qed.

End AnyCalls.

(** ** Calls that raise *)





(** ** The fee on its way to the bounds *)

Lemma fee_orbit_steps (fee : float) :
  fee ∈ fee_orbit ->
  lower_fee fee ∈ fee_orbit /\ raise_fee fee ∈ fee_orbit /\
  F64.leb (lower_fee fee) fee = true /\
  (F64.eqb (lower_fee fee) fee = true -> F64.eqb fee f_0_05 = true) /\
  F64.leb fee (raise_fee fee) = true /\
  (F64.eqb (raise_fee fee) fee = true -> F64.eqb fee f_1_0 = true) /\
  Nat.iter 10 lower_fee fee = f_0_05 /\
  Nat.iter 10 raise_fee fee = f_1_0.
Proof.
  assert (Hall : Forall (fun fee =>
            lower_fee fee ∈ fee_orbit /\ raise_fee fee ∈ fee_orbit /\
            F64.leb (lower_fee fee) fee = true /\
            (F64.eqb (lower_fee fee) fee = true -> F64.eqb fee f_0_05 = true) /\
            F64.leb fee (raise_fee fee) = true /\
            (F64.eqb (raise_fee fee) fee = true -> F64.eqb fee f_1_0 = true) /\
            Nat.iter 10 lower_fee fee = f_0_05 /\
            Nat.iter 10 raise_fee fee = f_1_0) fee_orbit).
  { apply (bool_decide_unpack _). vm_compute. exact I. }
  rewrite Forall_forall in Hall. apply Hall.
Qed.

Lemma fee_at_floor (fee : float) (n : nat) :
  fee ∈ fee_orbit -> (10 <= n)%nat -> Nat.iter n lower_fee fee = f_0_05.
Proof.
  intros Hin Hn. replace n with ((n - 10) + 10)%nat by lia.
  rewrite Nat.iter_add.
  destruct (fee_orbit_steps fee Hin) as (_ & _ & _ & _ & _ & _ & -> & _).
  induction (n - 10)%nat as [|k IH]; [reflexivity|].
  simpl. rewrite IH. vm_compute. reflexivity.
Qed.

Lemma fee_at_ceiling (fee : float) (n : nat) :
  fee ∈ fee_orbit -> (10 <= n)%nat -> Nat.iter n raise_fee fee = f_1_0.
Proof.
  intros Hin Hn. replace n with ((n - 10) + 10)%nat by lia.
  rewrite Nat.iter_add.
  destruct (fee_orbit_steps fee Hin) as (_ & _ & _ & _ & _ & _ & _ & ->).
  induction (n - 10)%nat as [|k IH]; [reflexivity|].
  simpl. rewrite IH. vm_compute. reflexivity.
Qed.

(** Every pool of a run that starts at a fresh pool holds a fee of the
    orbit. *)
Lemma run_fee_in_orbit `{!PyRuntime} (pool_data : gmap string pyval)
    (pool p : LiquidityPool) (frames : list DataFrame) :
  __init__ pool_data = Ok pool ->
  p ∈ pool :: pool_trace pool frames ->
  fee_tier p ∈ fee_orbit.
Proof.
  intros Hinit Hp. apply init_fee in Hinit as [Hfee _].
  assert (Hstart : fee_tier pool ∈ fee_orbit) by (rewrite Hfee; apply fee_orbit_start).
  apply elem_of_cons in Hp as [->|Hp]; [exact Hstart|].
  assert (Hall : Forall (fun q => fee_tier q ∈ fee_orbit) (pool_trace pool frames)).
  { apply (pool_trace_invariant _ (fun _ => True)).
    - intros q volume_data Hq _. apply fee_orbit_call, Hq.
    - exact Hstart.
    - apply Forall_forall. intros; exact I. }
  rewrite Forall_forall in Hall. apply Hall, Hp.
Qed.

(** The fee after the calls of a series of high-volume frames. *)
Lemma high_trace_fee `{!PyRuntime} (frames : list DataFrame) :
  forall (p p' : LiquidityPool) (i : nat),
    Forall high_volume frames ->
    pool_trace p frames !! i = Some p' ->
    fee_tier p' = Nat.iter (S i) lower_fee (fee_tier p) \/
    fee_tier p' = Nat.iter i lower_fee (fee_tier p).
Proof.
  induction frames as [|volume_data rest IH]; intros p p' i Hhigh Hi; [discriminate|].
  inversion Hhigh as [|? ? Hhead Htail]; subst. red in Hhead.
  cbn [pool_trace] in Hi.
  destruct (fee_after_call p volume_data) as [(_ & Hfee)|(Hge & _)]; [|congruence].
  destruct i as [|i].
  - injection Hi as <-. destruct Hfee as [->| ->]; [left|right]; reflexivity.
  - cbn [lookup list_lookup] in Hi.
    destruct (is_Ok (outcome p volume_data)) eqn:Hok; [|discriminate].
    assert (Hdown : fee_tier (pool_after p volume_data) = lower_fee (fee_tier p)).
    { unfold pool_after, outcome in *.
      destruct (boosted_cases (reserve_a p) (reserve_b p))
        as [(ra' & rb' & Ha & Hb)|[(e & Ha)|(ra' & e & Ha & Hb)]].
      - rewrite (call_high p volume_data ra' rb' Hhead Ha Hb). reflexivity.
      - rewrite (call_high_raise_a p volume_data e Hhead Ha) in Hok. discriminate.
      - rewrite (call_high_raise_b p volume_data ra' e Hhead Ha Hb) in Hok. discriminate. }
    destruct (IH _ p' i Htail Hi) as [Hp'|Hp']; rewrite Hp', Hdown; [left|right];
      rewrite <- Nat.iter_succ_r; reflexivity.
Qed.

Lemma low_trace_fee `{!PyRuntime} (frames : list DataFrame) :
  forall (p p' : LiquidityPool) (i : nat),
    Forall not_high_volume frames ->
    pool_trace p frames !! i = Some p' ->
    fee_tier p' = Nat.iter (S i) raise_fee (fee_tier p).
Proof.
  induction frames as [|volume_data rest IH]; intros p p' i Hlow Hi; [discriminate|].
  inversion Hlow as [|? ? Hhead Htail]; subst. red in Hhead.
  cbn [pool_trace] in Hi. unfold pool_after, outcome in Hi.
  rewrite (call_low p volume_data Hhead) in Hi. cbn [fst snd the_pool is_Ok] in Hi.
  destruct i as [|i].
  - injection Hi as <-. reflexivity.
  - cbn [lookup list_lookup] in Hi.
    rewrite (IH _ p' i Htail Hi).
    change (fee_tier (set_price_range (range_narrow p) (set_fee_tier (fee_up p) p)))
      with (raise_fee (fee_tier p)).
    rewrite <- Nat.iter_succ_r. reflexivity.
Qed.

Lemma fee_orbit_leb_refl (fee : float) : fee ∈ fee_orbit -> F64.leb fee fee = true.
Proof.
  assert (Hall : Forall (fun fee => F64.leb fee fee = true) fee_orbit).
  { apply (bool_decide_unpack _). vm_compute. exact I. }
  rewrite Forall_forall in Hall. apply Hall.
Qed.

(** X4. On every pool of a run of calls that starts at a pool built by
    [__init__]: a call on a frame whose average volume is at least the
    threshold leaves a fee that is not above the old one and, if the call
    returns, equal to it only when the old fee is 0.05; a call on any
    other frame leaves a fee that is not below the old one, and equal to it
    only when the old fee is 1.0. *)
Theorem fee_moves_toward_bound `{!PyRuntime} (pool_data : gmap string pyval)
    (pool p : LiquidityPool) (frames : list DataFrame) (volume_data : DataFrame) :
  __init__ pool_data = Ok pool ->
  p ∈ pool :: pool_trace pool frames ->
  let fee := fee_tier p in
  let fee' := fee_tier (pool_after p volume_data) in
  (F64.geb (avg_volume_of volume_data) threshold = true ->
   F64.leb fee' fee = true /\
   (is_Ok (outcome p volume_data) = true ->
    F64.eqb fee' fee = true -> F64.eqb fee f_0_05 = true)) /\
  (F64.geb (avg_volume_of volume_data) threshold = false ->
   F64.leb fee fee' = true /\
   (F64.eqb fee' fee = true -> F64.eqb fee f_1_0 = true)).
Proof.
  intros Hinit Hp. pose proof (run_fee_in_orbit pool_data pool p frames Hinit Hp) as Hin.
  destruct (fee_orbit_steps _ Hin) as (_ & _ & Hle & Hfloor & Hge' & Hceil & _ & _).
  cbv zeta. unfold pool_after, outcome. split; intros Hge.
  - destruct (boosted_cases (reserve_a p) (reserve_b p))
      as [(ra' & rb' & Ha & Hb)|[(e & Ha)|(ra' & e & Ha & Hb)]].
    + rewrite (call_high p volume_data ra' rb' Hge Ha Hb). split; [exact Hle|].
      intros _. exact Hfloor.
    + rewrite (call_high_raise_a p volume_data e Hge Ha). split; [|discriminate].
      apply fee_orbit_leb_refl, Hin.
    + rewrite (call_high_raise_b p volume_data ra' e Hge Ha Hb). split; [|discriminate].
      apply fee_orbit_leb_refl, Hin.
  - rewrite (call_low p volume_data Hge). split; [exact Hge'|exact Hceil].
Qed.

(** X5. From any pool of a run that starts at a pool built by [__init__]:
    in a series of calls on high-volume frames every pool from the
    eleventh on holds the fee 0.05, and in a series of calls on frames that
    are not high-volume every pool from the tenth on holds the fee 1.0. *)
Theorem fee_reaches_bound `{!PyRuntime} (pool_data : gmap string pyval)
    (pool p p' : LiquidityPool) (frames more : list DataFrame) (i : nat) :
  __init__ pool_data = Ok pool ->
  p ∈ pool :: pool_trace pool frames ->
  pool_trace p more !! i = Some p' ->
  (Forall high_volume more -> (10 <= i)%nat -> F64.eqb (fee_tier p') f_0_05 = true) /\
  (Forall not_high_volume more -> (9 <= i)%nat -> F64.eqb (fee_tier p') f_1_0 = true).
Proof.
  intros Hinit Hp Hi. pose proof (run_fee_in_orbit pool_data pool p frames Hinit Hp) as Hin.
  split; intros Hmore Hlen.
  - destruct (high_trace_fee more p p' i Hmore Hi) as [-> | ->];
      rewrite fee_at_floor by (try assumption; lia); reflexivity.
  - rewrite (low_trace_fee more p p' i Hmore Hi).
    rewrite fee_at_ceiling by (try assumption; lia). reflexivity.
Qed.

Lemma fee_moves_toward_bound_witness :
  __init__ (H := Reference.runtime) Samples.snapshot = Ok Samples.fresh /\
  Samples.fresh ∈ Samples.fresh :: pool_trace (H := Reference.runtime) Samples.fresh [] /\
  F64.geb (avg_volume_of (H := Reference.runtime) Samples.busy) threshold = true /\
  F64.leb (fee_tier (pool_after (H := Reference.runtime) Samples.fresh Samples.busy))
          (fee_tier Samples.fresh) = true.
Proof.
  assert (Hinit : __init__ (H := Reference.runtime) Samples.snapshot = Ok Samples.fresh)
    by (vm_compute; reflexivity).
  assert (Hin : Samples.fresh ∈
                Samples.fresh :: pool_trace (H := Reference.runtime) Samples.fresh [])
    by apply list_elem_of_here.
  assert (Hge : F64.geb (avg_volume_of (H := Reference.runtime) Samples.busy) threshold = true)
    by (vm_compute; reflexivity).
  split; [exact Hinit|]. split; [exact Hin|]. split; [exact Hge|].
  exact (proj1 (proj1 (fee_moves_toward_bound (H := Reference.runtime)
                         Samples.snapshot Samples.fresh Samples.fresh [] Samples.busy
                         Hinit Hin) Hge)).
Defined.

Lemma fee_reaches_bound_witness :
  let quiet_run := replicate 10 Samples.quiet in
  exists p' : LiquidityPool,
    __init__ (H := Reference.runtime) Samples.snapshot = Ok Samples.fresh /\
    pool_trace (H := Reference.runtime) Samples.fresh quiet_run !! 9%nat = Some p' /\
    Forall (not_high_volume (H := Reference.runtime)) quiet_run /\
    F64.eqb (fee_tier p') f_1_0 = true.
Proof.
  intros quiet_run.
  assert (Hinit : __init__ (H := Reference.runtime) Samples.snapshot = Ok Samples.fresh)
    by (vm_compute; reflexivity).
  assert (Hin : Samples.fresh ∈
                Samples.fresh :: pool_trace (H := Reference.runtime) Samples.fresh [])
    by apply list_elem_of_here.
  assert (Hlow : Forall (not_high_volume (H := Reference.runtime)) quiet_run)
    by (repeat constructor).
  eexists. split; [exact Hinit|].
  assert (Hi : pool_trace (H := Reference.runtime) Samples.fresh quiet_run !! 9%nat =
               Some (Nat.iter 10 low_step Samples.fresh)) by (vm_compute; reflexivity).
  split; [exact Hi|]. split; [exact Hlow|].
  exact (proj2 (fee_reaches_bound (H := Reference.runtime) Samples.snapshot
                  Samples.fresh Samples.fresh _ [] quiet_run 9 Hinit Hin Hi)
               Hlow (le_n 9)).
Defined.

(** ** Comparing doubles in canonical form *)

Lemma compare_canonical_le (q1 q2 : positive) (e1 e2 b : Z) :
  canonical_mantissa 53 1024 q1 e1 = true ->
  canonical_mantissa 53 1024 q2 e2 = true ->
  b <= e1 -> b <= e2 ->
  Z.pos q1 * 2 ^ (e1 - b) <= Z.pos q2 * 2 ^ (e2 - b) ->
  SFleb (S754_finite false q1 e1) (S754_finite false q2 e2) = true.
Proof.
  intros H1 H2 Hb1 Hb2 Hle.
  destruct (Z.eq_dec (Z.pos q1 * 2 ^ (e1 - b)) (Z.pos q2 * 2 ^ (e2 - b))) as [Heq|Hne].
  - assert (He : e1 = e2).
    { pose proof H1 as H1'. pose proof H2 as H2'.
      apply canonical_digits in H1' as (Hm1 & Hhi1 & Hlo1).
      apply canonical_digits in H2' as (Hm2 & Hhi2 & Hlo2).
      destruct (Z.lt_trichotomy e1 e2) as [Hlt|[He|Hgt]]; [exfalso|exact He|exfalso].
      - specialize (Hlo2 ltac:(lia)).
        replace (e2 - b) with ((e2 - e1) + (e1 - b)) in Heq by lia.
        rewrite Z.pow_add_r in Heq by lia.
        assert (Hp : 0 < 2 ^ (e1 - b)) by (apply Z.pow_pos_nonneg; lia).
        assert (H2' : 2 ^ 1 <= 2 ^ (e2 - e1)) by (apply Z.pow_le_mono_r; lia).
        change (2 ^ 1) with 2 in H2'. rewrite Z.mul_assoc in Heq.
        apply Z.mul_reg_r in Heq; [|lia].
        change (2 ^ 53) with (2 * 2 ^ 52) in *. nia.
      - specialize (Hlo1 ltac:(lia)).
        replace (e1 - b) with ((e1 - e2) + (e2 - b)) in Heq by lia.
        rewrite Z.pow_add_r in Heq by lia.
        assert (Hp : 0 < 2 ^ (e2 - b)) by (apply Z.pow_pos_nonneg; lia).
        assert (H2' : 2 ^ 1 <= 2 ^ (e1 - e2)) by (apply Z.pow_le_mono_r; lia).
        change (2 ^ 1) with 2 in H2'. rewrite Z.mul_assoc in Heq.
        apply Z.mul_reg_r in Heq; [|lia].
        change (2 ^ 53) with (2 * 2 ^ 52) in *. nia. }
    subst e2. assert (Hp : 0 < 2 ^ (e1 - b)) by (apply Z.pow_pos_nonneg; lia).
    apply Z.mul_reg_r in Heq; [|lia]. injection Heq as ->.
    unfold SFleb. cbn [SFcompare]. rewrite Z.compare_refl, Pos.compare_cont_refl. reflexivity.
  - unfold SFleb. rewrite (compare_canonical q1 q2 e1 e2 b H1 H2 Hb1 Hb2); [reflexivity|lia].
Qed.

Lemma ltb_scaled (q1 q2 : positive) (e1 e2 : Z) :
  canonical_mantissa 53 1024 q1 e1 = true ->
  canonical_mantissa 53 1024 q2 e2 = true ->
  (SFltb (S754_finite false q1 e1) (S754_finite false q2 e2) = true <->
   scaled q1 e1 < scaled q2 e2).
Proof.
  intros H1 H2.
  pose proof (canonical_digits q1 e1 H1) as (Hm1 & _).
  pose proof (canonical_digits q2 e2 H2) as (Hm2 & _).
  unfold scaled. replace (e1 + 1200) with (e1 - -1200) by lia.
  replace (e2 + 1200) with (e2 - -1200) by lia.
  split.
  - intros Hlt.
    destruct (Z.lt_ge_cases (Z.pos q1 * 2 ^ (e1 - -1200)) (Z.pos q2 * 2 ^ (e2 - -1200)))
      as [|Hge]; [assumption|exfalso].
    pose proof (compare_canonical_le q2 q1 e2 e1 (-1200) H2 H1 ltac:(lia) ltac:(lia) Hge) as Hle.
    unfold SFltb in Hlt. unfold SFleb in Hle.
    rewrite (SFcompare_swap (S754_finite false q1 e1)) in Hle.
    destruct (SFcompare (S754_finite false q1 e1) (S754_finite false q2 e2)) as [[]|];
      simpl in *; discriminate.
  - intros Hlt. unfold SFltb.
    rewrite (compare_canonical q1 q2 e1 e2 (-1200) H1 H2); [reflexivity|lia|lia|exact Hlt].
Qed.

Lemma leb_scaled (q1 q2 : positive) (e1 e2 : Z) :
  canonical_mantissa 53 1024 q1 e1 = true ->
  canonical_mantissa 53 1024 q2 e2 = true ->
  (SFleb (S754_finite false q1 e1) (S754_finite false q2 e2) = true <->
   scaled q1 e1 <= scaled q2 e2).
Proof.
  intros H1 H2.
  pose proof (canonical_digits q1 e1 H1) as (Hm1 & _).
  pose proof (canonical_digits q2 e2 H2) as (Hm2 & _).
  split.
  - intros Hle.
    destruct (Z.le_gt_cases (scaled q1 e1) (scaled q2 e2)) as [|Hgt]; [assumption|exfalso].
    apply (ltb_scaled q2 q1 e2 e1 H2 H1) in Hgt.
    unfold SFltb in Hgt. unfold SFleb in Hle.
    rewrite (SFcompare_swap (S754_finite false q1 e1)) in Hgt.
    destruct (SFcompare (S754_finite false q1 e1) (S754_finite false q2 e2)) as [[]|];
      simpl in *; discriminate.
  - intros Hle. unfold scaled in Hle.
    replace (e1 + 1200) with (e1 - -1200) in Hle by lia.
    replace (e2 + 1200) with (e2 - -1200) in Hle by lia.
    apply (compare_canonical_le q1 q2 e1 e2 (-1200)); try assumption; lia.
Qed.

(** ** A double times 0.95 and times 1.05 *)

Lemma product_shift (m c : positive) (e ec : Z) :
  bounded 53 1024 m e = true ->
  2 ^ 52 <= Z.pos c < 2 ^ 53 -> -53 <= ec <= -52 ->
  let ex := e + ec in
  let e1 := Z.max (Z.pos (digits2_pos (m * c)) + ex - 53) (-1074) in
  ex < e1 /\
  (2 ^ 52 <= Z.pos m -> 2 ^ (e1 - ex) * 2 ^ 52 <= Z.pos m * Z.pos c + 2 ^ 105) /\
  (Z.pos m < 2 ^ 52 -> e1 = -1074 /\ e = -1074).
Proof.
  intros Hb Hc Hec ex e1. unfold bounded in Hb. apply andb_true_iff in Hb as [Hcan _].
  apply canonical_digits in Hcan as (Hemin & Hmhi & Hmlo).
  pose proof (digits2_pos_bounds (m * c)) as [Hlo Hhi].
  rewrite Pos2Z.inj_mul in Hlo, Hhi.
  set (d := Z.pos (digits2_pos (m * c))) in *.
  assert (Hd53 : 52 < d).
  { apply digits_ge; [lia|]. rewrite Pos2Z.inj_mul. nia. }
  assert (Hd106 : d <= 106).
  { apply digits_le; [lia|]. rewrite Pos2Z.inj_mul.
    change (2 ^ 106) with (2 ^ 53 * 2 ^ 53). nia. }
  assert (Hsub : Z.pos m < 2 ^ 52 -> e1 = -1074 /\ e = -1074).
  { intros Hm. assert (He : e = -1074) by lia. split; [|exact He].
    assert (Hd105 : d <= 105).
    { apply digits_le; [lia|]. rewrite Pos2Z.inj_mul.
      change (2 ^ 105) with (2 ^ 52 * 2 ^ 53). nia. }
    unfold e1, ex. lia. }
  assert (Hnorm : 2 ^ 52 <= Z.pos m -> 104 < d).
  { intros Hm. apply digits_ge; [lia|]. rewrite Pos2Z.inj_mul.
    change (2 ^ 104) with (2 ^ 52 * 2 ^ 52). nia. }
  split; [|split; [|exact Hsub]].
  - destruct (Z.le_gt_cases (2 ^ 52) (Z.pos m)) as [Hm|Hm].
    + specialize (Hnorm Hm). unfold e1, ex. lia.
    + destruct (Hsub Hm) as [-> He]. unfold ex. lia.
  - intros Hm. specialize (Hnorm Hm).
    destruct (Z.max_spec (d + ex - 53) (-1074)) as [[_ Hmax]|[_ Hmax]]; fold e1 in Hmax;
      rewrite Hmax.
    + assert (H : 2 ^ (-1074 - ex) <= 2 ^ 53) by (apply Z.pow_le_mono_r; unfold ex; lia).
      change (2 ^ 105) with (2 ^ 53 * 2 ^ 52). nia.
    + replace (d + ex - 53 - ex) with (d - 53) by lia.
      rewrite <- Z.pow_add_r by lia. replace (d - 53 + 52) with (d - 1) by lia.
      assert (0 < 2 ^ 105) by reflexivity. lia.
Qed.

Lemma scaled_shift (q : positive) (e2 ex : Z) :
  -1200 <= ex <= e2 ->
  scaled q e2 = Z.pos q * 2 ^ (e2 - ex) * 2 ^ (ex + 1200).
Proof.
  intros H. unfold scaled. rewrite <- Z.mul_assoc, <- Z.pow_add_r by lia.
  f_equal. f_equal. lia.
Qed.

Lemma tiny_cases (m : positive) :
  Z.pos m < 10 ->
  m ∈ [1; 2; 3; 4; 5; 6; 7; 8; 9]%positive.
Proof.
  intros Hm.
  assert (H : Z.pos m = 1 \/ Z.pos m = 2 \/ Z.pos m = 3 \/ Z.pos m = 4 \/ Z.pos m = 5 \/
              Z.pos m = 6 \/ Z.pos m = 7 \/ Z.pos m = 8 \/ Z.pos m = 9) by lia.
  repeat (destruct H as [H|H]; [injection H as ->; set_solver|]).
  injection H as ->. set_solver.
Qed.

(** The two products, away from the nine smallest doubles. *)
Lemma mul_0_95_core (m : positive) (e : Z) :
  bounded 53 1024 m e = true ->
  (2 ^ 52 <= Z.pos m \/ 10 <= Z.pos m) ->
  exists (q : positive) (e2 : Z),
    F64.mul (S754_finite false m e) f_0_95 = S754_finite false q e2 /\
    bounded 53 1024 q e2 = true /\
    scaled q e2 <= scaled m e.
Proof.
  intros Hb Hdom. pose proof Hb as Hb'. unfold bounded in Hb'.
  apply andb_true_iff in Hb' as [Hcan Hemax].
  apply Z.leb_le in Hemax. change (1024 - 53) with 971 in Hemax.
  apply canonical_digits in Hcan as (Hemin & Hmhi & Hmlo).
  unfold F64.mul, f_0_95. cbn [SFmul xorb].
  change F64.prec with 53. change F64.emax with 1024.
  set (cl := 8556839292003942%positive).
  destruct (product_shift m cl e (-53) Hb ltac:(unfold cl; lia) ltac:(lia)) as (Hsh & Hn & Hs).
  destruct (round_aux_spec (m * cl) (e + -53) Hsh) as (q & e2 & Hq & He2 & Hv & Hc & ->).
  set (ex := e + -53) in *.
  set (e1 := Z.max (Z.pos (digits2_pos (m * cl)) + ex - 53) (-1074)) in *.
  rewrite Pos2Z.inj_mul in *.
  assert (HE : 0 < 2 ^ (e1 - ex)) by (apply Z.pow_pos_nonneg; lia).
  assert (HX : 0 < 2 ^ (e2 - ex)) by (apply Z.pow_pos_nonneg; lia).
  assert (Hgap : 2 ^ (e1 - ex) <= 2 * Z.pos m * 450359962737050).
  { destruct (Z.le_gt_cases (2 ^ 52) (Z.pos m)) as [Hnormal|Hsub].
    - specialize (Hn Hnormal). clear - Hn Hnormal HE.
      generalize dependent (2 ^ (e1 - ex)). intros E Hn HE. unfold cl in Hn.
      change (2 ^ 105) with 40564819207303340847894502572032 in Hn.
      change (2 ^ 52) with 4503599627370496 in *. lia.
    - destruct (Hs Hsub) as [-> He]. unfold ex. rewrite He.
      change (2 ^ (-1074 - (-1074 + -53))) with 9007199254740992. lia. }
  rewrite <- !Z.mul_assoc in Hv.
  assert (Hrel : q * 2 ^ (e2 - ex) <= Z.pos m * 2 ^ 53).
  { clear - Hv Hgap. generalize dependent (2 ^ (e1 - ex)).
    generalize dependent (q * 2 ^ (e2 - ex)). intros V E Hv Hgap. unfold cl in Hv.
    change (2 ^ 53) with 9007199254740992. lia. }
  assert (Hqpos : 0 < q).
  { destruct (Z.eq_dec q 0) as [Hq0|]; [exfalso|lia]. rewrite Hq0 in Hv.
    clear - Hv Hgap. generalize dependent (2 ^ (e1 - ex)). intros E Hv Hgap.
    unfold cl in Hv. lia. }
  specialize (Hc Hqpos). destruct q as [|mq|mq]; try lia. cbn [Z.to_pos] in Hc.
  assert (He2e : e2 <= e).
  { destruct (Z.le_gt_cases e2 e) as [|Hbig]; [assumption|exfalso].
    pose proof (canonical_digits mq e2 Hc) as (_ & _ & Hqlo). specialize (Hqlo ltac:(lia)).
    assert (H54 : 2 ^ 54 <= 2 ^ (e2 - ex)) by (apply Z.pow_le_mono_r; unfold ex; lia).
    assert (2 ^ 52 * 2 ^ 54 <= Z.pos mq * 2 ^ (e2 - ex)) by (apply Z.mul_le_mono_nonneg; lia).
    assert (Z.pos m * 2 ^ 53 < 2 ^ 53 * 2 ^ 53) by (apply Z.mul_lt_mono_pos_r; lia).
    change (2 ^ 52 * 2 ^ 54) with (2 ^ 53 * 2 ^ 53) in *. lia. }
  exists mq, e2. rewrite (proj2 (Z.leb_le e2 971)) by lia.
  split; [reflexivity|]. split.
  { unfold bounded. rewrite Hc. apply Z.leb_le. change (1024 - 53) with 971. lia. }
  rewrite (scaled_shift mq e2 ex) by (unfold ex, e1 in *; lia).
  rewrite (scaled_shift m e ex) by (unfold ex; lia).
  replace (e - ex) with 53 by (unfold ex; lia).
  apply Z.mul_le_mono_nonneg_r; [|exact Hrel].
  apply Z.pow_nonneg. lia.
Qed.

(** A positive double times 0.95 is a positive double that is not larger. *)
Lemma mul_0_95_le (m : positive) (e : Z) :
  bounded 53 1024 m e = true ->
  exists (q : positive) (e2 : Z),
    F64.mul (S754_finite false m e) f_0_95 = S754_finite false q e2 /\
    bounded 53 1024 q e2 = true /\
    scaled q e2 <= scaled m e.
Proof.
  intros Hb.
  destruct (Z.lt_ge_cases (Z.pos m) (2 ^ 52)) as [Hsub|Hnormal];
    [destruct (Z.lt_ge_cases (Z.pos m) 10) as [Htiny|Hten]|].
  - (* the nine smallest doubles *)
    assert (He : e = -1074).
    { unfold bounded in Hb. apply andb_true_iff in Hb as [Hcan _].
      apply canonical_digits in Hcan as (? & ? & ?). lia. }
    subst e. exists m, (-1074).
    assert (Hall : Forall (fun m : positive =>
              F64.mul (S754_finite false m (-1074)) f_0_95 = S754_finite false m (-1074) /\
              bounded 53 1024 m (-1074) = true)
              [1; 2; 3; 4; 5; 6; 7; 8; 9]%positive).
    { repeat constructor. }
    rewrite Forall_forall in Hall. destruct (Hall m (tiny_cases m Htiny)) as [-> ->].
    repeat split. lia.
  - apply (mul_0_95_core m e Hb). right. lia.
  - apply (mul_0_95_core m e Hb). left. exact Hnormal.
Qed.

Lemma mul_1_05_core (m : positive) (e : Z) :
  bounded 53 1024 m e = true ->
  (2 ^ 52 <= Z.pos m \/ 10 <= Z.pos m) ->
  F64.mul (S754_finite false m e) f_1_05 = S754_infinity false \/
  exists (q : positive) (e2 : Z),
    F64.mul (S754_finite false m e) f_1_05 = S754_finite false q e2 /\
    bounded 53 1024 q e2 = true /\
    scaled m e <= scaled q e2.
Proof.
  intros Hb Hdom. pose proof Hb as Hb'. unfold bounded in Hb'.
  apply andb_true_iff in Hb' as [Hcan Hemax].
  apply canonical_digits in Hcan as (Hemin & Hmhi & Hmlo).
  unfold F64.mul, f_1_05. cbn [SFmul xorb].
  change F64.prec with 53. change F64.emax with 1024.
  set (cu := 4728779608739021%positive).
  destruct (product_shift m cu e (-52) Hb ltac:(unfold cu; lia) ltac:(lia)) as (Hsh & Hn & Hs).
  destruct (round_aux_spec (m * cu) (e + -52) Hsh) as (q & e2 & Hq & He2 & Hv & Hc & ->).
  set (ex := e + -52) in *.
  set (e1 := Z.max (Z.pos (digits2_pos (m * cu)) + ex - 53) (-1074)) in *.
  rewrite Pos2Z.inj_mul in *.
  assert (HE : 0 < 2 ^ (e1 - ex)) by (apply Z.pow_pos_nonneg; lia).
  assert (HX : 0 < 2 ^ (e2 - ex)) by (apply Z.pow_pos_nonneg; lia).
  assert (Hgap : 2 ^ (e1 - ex) <= 2 * Z.pos m * 225179981368525).
  { destruct (Z.le_gt_cases (2 ^ 52) (Z.pos m)) as [Hnormal|Hsub].
    - specialize (Hn Hnormal). clear - Hn Hnormal HE.
      generalize dependent (2 ^ (e1 - ex)). intros E Hn HE. unfold cu in Hn.
      change (2 ^ 105) with 40564819207303340847894502572032 in Hn.
      change (2 ^ 52) with 4503599627370496 in *. lia.
    - destruct (Hs Hsub) as [-> He]. unfold ex. rewrite He.
      change (2 ^ (-1074 - (-1074 + -52))) with 4503599627370496. lia. }
  rewrite <- !Z.mul_assoc in Hv.
  assert (Hrel : Z.pos m * 2 ^ 52 <= q * 2 ^ (e2 - ex)).
  { clear - Hv Hgap. generalize dependent (2 ^ (e1 - ex)).
    generalize dependent (q * 2 ^ (e2 - ex)). intros V E Hv Hgap. unfold cu in Hv.
    change (2 ^ 52) with 4503599627370496. lia. }
  assert (Hqpos : 0 < q).
  { destruct (Z.eq_dec q 0) as [Hq0|]; [exfalso|lia]. rewrite Hq0 in Hrel.
    change (2 ^ 52) with 4503599627370496 in Hrel. lia. }
  specialize (Hc Hqpos). destruct q as [|mq|mq]; try lia. cbn [Z.to_pos] in Hc.
  destruct (e2 <=? 971) eqn:Hfin; [right|left; reflexivity].
  exists mq, e2. split; [reflexivity|]. split.
  { unfold bounded. rewrite Hc. exact Hfin. }
  rewrite (scaled_shift mq e2 ex) by (unfold ex, e1 in *; lia).
  rewrite (scaled_shift m e ex) by (unfold ex; lia).
  replace (e - ex) with 52 by (unfold ex; lia).
  apply Z.mul_le_mono_nonneg_r; [|exact Hrel].
  apply Z.pow_nonneg. lia.
Qed.

(** A positive double times 1.05 is not smaller, and may be infinite. *)
Lemma mul_1_05_ge (m : positive) (e : Z) :
  bounded 53 1024 m e = true ->
  F64.mul (S754_finite false m e) f_1_05 = S754_infinity false \/
  exists (q : positive) (e2 : Z),
    F64.mul (S754_finite false m e) f_1_05 = S754_finite false q e2 /\
    bounded 53 1024 q e2 = true /\
    scaled m e <= scaled q e2.
Proof.
  intros Hb.
  destruct (Z.lt_ge_cases (Z.pos m) (2 ^ 52)) as [Hsub|Hnormal];
    [destruct (Z.lt_ge_cases (Z.pos m) 10) as [Htiny|Hten]|].
  - assert (He : e = -1074).
    { unfold bounded in Hb. apply andb_true_iff in Hb as [Hcan _].
      apply canonical_digits in Hcan as (? & ? & ?). lia. }
    subst e. right. exists m, (-1074).
    assert (Hall : Forall (fun m : positive =>
              F64.mul (S754_finite false m (-1074)) f_1_05 = S754_finite false m (-1074) /\
              bounded 53 1024 m (-1074) = true)
              [1; 2; 3; 4; 5; 6; 7; 8; 9]%positive).
    { repeat constructor. }
    rewrite Forall_forall in Hall. destruct (Hall m (tiny_cases m Htiny)) as [-> ->].
    repeat split. lia.
  - apply (mul_1_05_core m e Hb). right. lia.
  - apply (mul_1_05_core m e Hb). left. exact Hnormal.
Qed.

(** A positive double that is below another double. *)
Lemma positive_below (x y : float) :
  valid_binary F64.prec F64.emax x = true ->
  valid_binary F64.prec F64.emax y = true ->
  F64.gtb x (S754_zero false) = true ->
  F64.ltb x y = true ->
  exists (m : positive) (e : Z),
    x = S754_finite false m e /\ bounded 53 1024 m e = true /\
    (y = S754_infinity false \/
     exists (m' : positive) (e' : Z),
       y = S754_finite false m' e' /\ bounded 53 1024 m' e' = true /\
       scaled m e < scaled m' e').
Proof.
  intros Hvx Hvy Hpos Hlt.
  destruct x as [sx|sx| |sx m e]; try (destruct sx; discriminate); try discriminate.
  - destruct sx; destruct y as [sy|[]| |[] ? ?]; discriminate.
  - destruct sx; [discriminate|]. exists m, e. split; [reflexivity|]. split; [exact Hvx|].
    destruct y as [sy|sy| |sy m' e']; try discriminate.
    + destruct sy; [discriminate|]. left. reflexivity.
    + destruct sy; [discriminate|]. right. exists m', e'.
      split; [reflexivity|]. split; [exact Hvy|].
      cbn [valid_binary] in Hvx, Hvy. unfold bounded in Hvx, Hvy.
      apply andb_true_iff in Hvx as [Hcx _]. apply andb_true_iff in Hvy as [Hcy _].
      apply (ltb_scaled m m' e e' Hcx Hcy). exact Hlt.
Qed.

(** Widening a range of positive prices. *)
Lemma widened_range (lower upper : float) :
  price_like (lower, upper) ->
  price_like (F64.mul lower f_0_95, F64.mul upper f_1_05) /\
  F64.leb (F64.mul lower f_0_95) lower = true /\
  F64.leb upper (F64.mul upper f_1_05) = true.
Proof.
  intros (Hvl & Hvu & Hpos & Hord). cbn [fst snd] in *. unfold price_like. cbn [fst snd].
  destruct (positive_below lower upper Hvl Hvu Hpos Hord)
    as (m & e & -> & Hb & Hupper).
  destruct (mul_0_95_le m e Hb) as (qL & eL & -> & HbL & HvL).
  pose proof (proj1 (proj1 (andb_true_iff _ _) HbL)) as HcL.
  pose proof (proj1 (proj1 (andb_true_iff _ _) Hb)) as Hcm.
  assert (HleL : F64.leb (S754_finite false qL eL) (S754_finite false m e) = true)
    by (apply (leb_scaled qL m eL e HcL Hcm); exact HvL).
  destruct Hupper as [->|(m' & e' & -> & Hb' & Hlt)].
  - repeat split; try reflexivity; assumption.
  - pose proof (proj1 (proj1 (andb_true_iff _ _) Hb')) as Hcm'.
    destruct (mul_1_05_ge m' e' Hb') as [->|(qU & eU & -> & HbU & HvU)].
    + repeat split; try reflexivity; assumption.
    + pose proof (proj1 (proj1 (andb_true_iff _ _) HbU)) as HcU.
      repeat split; try assumption; try reflexivity.
      * apply (ltb_scaled qL qU eL eU HcL HcU). lia.
      * apply (leb_scaled m' qU e' eU Hcm' HcU); exact HvU.
Qed.

(** The range after a high-volume call: widened if the call returned, the
    old one if it raised. *)
Lemma range_after_high `{!PyRuntime} (pool : LiquidityPool) (volume_data : DataFrame) :
  F64.geb (avg_volume_of volume_data) threshold = true ->
  (is_Ok (outcome pool volume_data) = true /\
   price_range (pool_after pool volume_data) = range_wide pool) \/
  (is_Ok (outcome pool volume_data) = false /\
   price_range (pool_after pool volume_data) = price_range pool).
Proof.
  intros Hge. unfold pool_after, outcome.
  destruct (boosted_cases (reserve_a pool) (reserve_b pool))
    as [(ra' & rb' & Ha & Hb)|[(e & Ha)|(ra' & e & Ha & Hb)]].
  - rewrite (call_high pool volume_data ra' rb' Hge Ha Hb). left. split; reflexivity.
  - rewrite (call_high_raise_a pool volume_data e Hge Ha). right. split; reflexivity.
  - rewrite (call_high_raise_b pool volume_data ra' e Hge Ha Hb). right. split; reflexivity.
Qed.

(** X6. A returning high-volume call on a pool whose range bounds are
    doubles with [0 < lower < upper] leaves a lower bound that is not
    above the old one, an upper bound that is not below the old one (it
    may be infinite), and [lower < upper] again. *)
Theorem widening_keeps_order `{!PyRuntime} (pool : LiquidityPool) (volume_data : DataFrame) :
  F64.geb (avg_volume_of volume_data) threshold = true ->
  is_Ok (outcome pool volume_data) = true ->
  valid_binary F64.prec F64.emax (fst (price_range pool)) = true ->
  valid_binary F64.prec F64.emax (snd (price_range pool)) = true ->
  F64.gtb (fst (price_range pool)) (S754_zero false) = true ->
  ordered pool = true ->
  let pool' := pool_after pool volume_data in
  F64.leb (fst (price_range pool')) (fst (price_range pool)) = true /\
  F64.leb (snd (price_range pool)) (snd (price_range pool')) = true /\
  ordered pool' = true.
Proof.
  intros Hge Hok Hvl Hvu Hpos Hord.
  destruct (range_after_high pool volume_data Hge) as [[_ Hrange]|[Hno _]]; [|congruence].
  cbv zeta. unfold ordered in *. rewrite Hrange. unfold range_wide. cbn [fst snd].
  destruct (widened_range (fst (price_range pool)) (snd (price_range pool)))
    as ((_ & _ & _ & Hord') & Hl & Hu).
  { repeat split; assumption. }
  cbn [fst snd] in Hord'. repeat split; assumption.
Qed.

Lemma widening_keeps_order_witness :
  F64.geb (avg_volume_of (H := Reference.runtime) Samples.busy) threshold = true /\
  is_Ok (outcome (H := Reference.runtime) Samples.fresh Samples.busy) = true /\
  ordered Samples.fresh = true /\
  ordered (pool_after (H := Reference.runtime) Samples.fresh Samples.busy) = true.
Proof.
  assert (Hge : F64.geb (avg_volume_of (H := Reference.runtime) Samples.busy) threshold = true)
    by (vm_compute; reflexivity).
  assert (Hok : is_Ok (outcome (H := Reference.runtime) Samples.fresh Samples.busy) = true)
    by (vm_compute; reflexivity).
  assert (Hord : ordered Samples.fresh = true) by (vm_compute; reflexivity).
  split; [exact Hge|]. split; [exact Hok|]. split; [exact Hord|].
  exact (proj2 (proj2 (widening_keeps_order (H := Reference.runtime)
                         Samples.fresh Samples.busy Hge Hok
                         eq_refl eq_refl eq_refl Hord))).
Defined.

(** X7. From a pool whose range bounds are doubles with
    [0 < lower < upper], every pool of a run of calls on high-volume frames
    has such a range again: widening never inverts or collapses the range
    and never brings the lower bound to zero. *)
Theorem high_volume_run_keeps_order `{!PyRuntime}
    (pool : LiquidityPool) (frames : list DataFrame) :
  price_like (price_range pool) ->
  Forall high_volume frames ->
  Forall (fun p => price_like (price_range p)) (pool_trace pool frames).
Proof.
  intros Hstart Hframes.
  apply (pool_trace_invariant (fun p => price_like (price_range p)) high_volume);
    try assumption.
  clear. intros pool volume_data Hpool Hhigh. red in Hhigh.
  destruct (range_after_high pool volume_data Hhigh) as [[_ ->]|[_ ->]]; [|exact Hpool].
  unfold range_wide. apply widened_range.
  destruct (price_range pool); exact Hpool.
Qed.

Lemma high_volume_run_keeps_order_witness :
  price_like (price_range Samples.fresh) /\
  Forall (high_volume (H := Reference.runtime)) [Samples.busy; Samples.no_frame] /\
  Forall (fun p => price_like (price_range p))
    (pool_trace (H := Reference.runtime) Samples.fresh [Samples.busy; Samples.no_frame]).
Proof.
  assert (Hstart : price_like (price_range Samples.fresh)) by (repeat split).
  assert (Hframes : Forall (high_volume (H := Reference.runtime))
                      [Samples.busy; Samples.no_frame]) by (repeat constructor).
  split; [exact Hstart|]. split; [exact Hframes|].
  exact (high_volume_run_keeps_order (H := Reference.runtime) Samples.fresh _ Hstart Hframes).
Defined.

(** ** How much a boost adds *)

(** The double nearest to a positive integer [p] below [2 ^ 1021], with its
    value [m * 2 ^ e] against [p], both in units of [2 ^ -52]. *)
Lemma of_Z_value (p : positive) :
  Z.pos p < 2 ^ 1021 ->
  exists (m : positive) (e : Z),
    F64.of_Z (Z.pos p) = S754_finite false m e /\
    2 ^ 52 <= Z.pos m < 2 ^ 53 /\ -52 <= e <= 969 /\
    2 * (Z.pos p * 2 ^ 52) - Z.pos p <= 2 * (Z.pos m * 2 ^ (e + 52))
      <= 2 * (Z.pos p * 2 ^ 52) + Z.pos p.
Proof.
  intros Hp. unfold F64.of_Z, binary_normalize, binary_round.
  change F64.prec with 53. change F64.emax with 1024.
  pose proof (digits2_pos_bounds p) as [Hlo Hhi].
  pose proof (digits_le p 1021 ltac:(lia) Hp) as Hd.
  set (d := Z.pos (digits2_pos p)) in *.
  assert (Hd1 : 1 <= d) by (unfold d; lia).
  replace (d + 0) with d by lia. rewrite fexp_eq.
  replace (Z.max (d - 53) (-1074)) with (d - 53) by lia.
  unfold shl_align. replace (d - 53 - 0) with (d - 53) by lia.
  destruct (d - 53) as [|k|k] eqn:Hk.
  - exists p, 0. rewrite round_aux_stay; [|fold d; rewrite fexp_eq; lia|lia].
    split; [reflexivity|]. replace (d - 1) with 52 in Hlo by lia.
    replace d with 53 in Hhi by lia. change (0 + 52) with 52. lia.
  - destruct (round_aux_spec p 0) as (q & e2 & Hq & He2 & Hv & Hc & ->).
    { fold d. lia. }
    fold d in He2, Hv. replace (Z.max (d + 0 - 53) (-1074)) with (Z.pos k) in * by lia.
    rewrite !Z.sub_0_r in Hv.
    assert (Hpk : 0 < 2 ^ Z.pos k) by (apply Z.pow_pos_nonneg; lia).
    assert (Hulp : 2 ^ Z.pos k * 2 ^ 52 <= Z.pos p).
    { rewrite <- Z.pow_add_r by lia. replace (Z.pos k + 52) with (d - 1) by lia. exact Hlo. }
    assert (Hqpos : 0 < q).
    { destruct (Z.eq_dec q 0) as [->|]; [exfalso|lia].
      change (2 ^ 52) with 4503599627370496 in Hulp. lia. }
    specialize (Hc Hqpos). apply canonical_digits in Hc as (_ & Hqhi & Hqlo).
    specialize (Hqlo ltac:(lia)). rewrite Z2Pos.id in * by lia.
    destruct q as [|m|m]; try lia.
    exists m, e2. rewrite (proj2 (Z.leb_le e2 971)) by lia.
    split; [reflexivity|]. split; [lia|]. split; [lia|].
    rewrite Z.pow_add_r by lia. rewrite <- !Z.mul_assoc in Hv.
    rewrite (Z.mul_assoc (Z.pos m)).
    clear - Hv Hulp.
    generalize dependent (Z.pos m * 2 ^ e2). intros V Hv.
    generalize dependent (2 ^ Z.pos k). intros E Hulp Hv.
    change (2 ^ 52) with 4503599627370496 in *. lia.
  - exists (Pos.iter xO p k), (Z.neg k).
    assert (Hm : Z.pos (Pos.iter xO p k) = Z.pos p * 2 ^ Z.pos k) by apply iter_xO.
    assert (Hpk : 0 < 2 ^ Z.pos k) by (apply Z.pow_pos_nonneg; lia).
    assert (Hbounds : 2 ^ 52 <= Z.pos (Pos.iter xO p k) < 2 ^ 53).
    { rewrite Hm. split.
      - replace 52 with (d - 1 + Z.pos k) by lia. rewrite Z.pow_add_r by lia.
        apply Z.mul_le_mono_nonneg_r; lia.
      - replace 53 with (d + Z.pos k) by lia. rewrite Z.pow_add_r by lia.
        apply Z.mul_lt_mono_pos_r; lia. }
    rewrite round_aux_stay; [| |lia].
    + split; [reflexivity|]. split; [exact Hbounds|]. split; [lia|].
      rewrite Hm. rewrite <- Z.mul_assoc, <- Z.pow_add_r by lia.
      replace (Z.pos k + (Z.neg k + 52)) with 52 by lia. lia.
    + rewrite fexp_eq.
      assert (Hdm : Z.pos (digits2_pos (Pos.iter xO p k)) = 53).
      { apply Z.le_antisymm.
        - apply digits_le_53. lia.
        - pose proof (digits_ge (Pos.iter xO p k) 52 ltac:(lia) ltac:(lia)). lia. }
      rewrite Hdm. lia.
Qed.

(** A normal double times 1.1, with the value [q * 2 ^ e2] of the product
    against the value [m * 2 ^ e] of the operand; the first in units of
    [2 ^ -104], the second in units of [2 ^ -52]. *)
Lemma mul_1_1_value (m : positive) (e : Z) :
  2 ^ 52 <= Z.pos m < 2 ^ 53 -> -52 <= e <= 969 ->
  exists (q : positive) (e2 : Z),
    F64.mul (S754_finite false m e) f_1_1 = S754_finite false q e2 /\
    -52 <= e2 /\
    let A := Z.pos m * 2 ^ (e + 52) in
    let R := Z.pos q * 2 ^ (e2 + 104) in
    (2 * (4953959590107546 * A) - 2 * R) * 2 ^ 52 <= 4953959590107546 * A /\
    (2 * R - 2 * (4953959590107546 * A)) * 2 ^ 52 <= 4953959590107546 * A.
Proof.
  intros Hm He. unfold F64.mul, f_1_1. cbn [SFmul xorb].
  change F64.prec with 53. change F64.emax with 1024.
  set (c := 4953959590107546%positive).
  pose proof (digits2_pos_bounds (m * c)) as [Hlo Hhi].
  set (d := Z.pos (digits2_pos (m * c))) in *.
  assert (Hd104 : 104 < d).
  { apply digits_ge; [lia|]. rewrite Pos2Z.inj_mul. unfold c.
    change (2 ^ 104) with (2 ^ 52 * 2 ^ 52). nia. }
  assert (Hd106 : d <= 106).
  { apply digits_le; [lia|]. rewrite Pos2Z.inj_mul. unfold c.
    change (2 ^ 106) with (2 ^ 53 * 2 ^ 53). nia. }
  set (ex := e + -52).
  assert (He1 : Z.max (d + ex - 53) (-1074) = d + ex - 53) by (unfold ex; lia).
  destruct (round_aux_spec (m * c) ex) as (q & e2 & Hq & He2 & Hv & Hc & ->).
  { fold d. unfold ex in *. lia. }
  fold d in He2, Hv. rewrite He1 in He2, Hv.
  replace (d + ex - 53 - ex) with (d - 53) in Hv by lia.
  assert (Hulp : 2 ^ (d - 53) * 2 ^ 52 <= Z.pos (m * c)).
  { rewrite <- Z.pow_add_r by lia. replace (d - 53 + 52) with (d - 1) by lia. exact Hlo. }
  assert (HE : 0 < 2 ^ (d - 53)) by (apply Z.pow_pos_nonneg; lia).
  assert (Hqpos : 0 < q).
  { destruct (Z.eq_dec q 0) as [Hq0|]; [exfalso|lia]. rewrite Hq0 in Hv.
    change (2 ^ 52) with 4503599627370496 in Hulp. lia. }
  destruct q as [|mq|mq]; try lia.
  exists mq, e2. rewrite (proj2 (Z.leb_le e2 971)) by (unfold ex in *; lia).
  split; [reflexivity|]. split; [unfold ex in *; lia|].
  cbv zeta.
  (* everything in units of [2 ^ ex], then scaled to [2 ^ -104] *)
  set (S := 2 ^ (e + 52)).
  assert (HS : 0 < S) by (apply Z.pow_pos_nonneg; lia).
  assert (HR : Z.pos mq * 2 ^ (e2 + 104) = Z.pos mq * 2 ^ (e2 - ex) * S).
  { unfold S. rewrite <- Z.mul_assoc, <- Z.pow_add_r by (unfold ex in *; lia).
    f_equal. f_equal. unfold ex. lia. }
  rewrite HR. rewrite Pos2Z.inj_mul in Hv, Hulp. rewrite <- !Z.mul_assoc in Hv.
  fold S. clear - Hv Hulp HS HE.
  generalize dependent (Z.pos mq * 2 ^ (e2 - ex)). intros V Hv.
  generalize dependent (2 ^ (d - 53)). intros E Hulp HE Hv.
  change (2 ^ 52) with 4503599627370496 in *. unfold c in *.
  replace (4953959590107546 * (Z.pos m * S)) with (Z.pos m * 4953959590107546 * S) by ring.
  split.
  - replace ((2 * (Z.pos m * 4953959590107546 * S) - 2 * (V * S)) * 4503599627370496)
      with (((2 * (Z.pos m * 4953959590107546) - 2 * V) * 4503599627370496) * S) by ring.
    apply Z.mul_le_mono_nonneg_r; lia.
  - replace ((2 * (V * S) - 2 * (Z.pos m * 4953959590107546 * S)) * 4503599627370496)
      with (((2 * V - 2 * (Z.pos m * 4953959590107546)) * 4503599627370496) * S) by ring.
    apply Z.mul_le_mono_nonneg_r; lia.
Qed.

(** [int(x)] of a positive double with an exponent of at least -104, in
    units of [2 ^ -104]. *)
Lemma int_of_float_floor (q : positive) (e2 z : Z) :
  -104 <= e2 ->
  int_of_float (S754_finite false q e2) = Ok z ->
  z * 2 ^ 104 <= Z.pos q * 2 ^ (e2 + 104) < (z + 1) * 2 ^ 104.
Proof.
  intros He Hz. apply int_of_float_truncates in Hz as (k & -> & Hk). cbn [cond_Zopp].
  destruct (Z.le_gt_cases 0 e2) as [Hpos|Hneg].
  - rewrite (Z.max_l 0 (- e2)), (Z.max_r 0 e2) in Hk by lia. change (2 ^ 0) with 1 in Hk.
    rewrite Z.pow_add_r by lia. assert (0 < 2 ^ 104) by reflexivity. nia.
  - rewrite (Z.max_r 0 (- e2)), (Z.max_l 0 e2) in Hk by lia. change (2 ^ 0) with 1 in Hk.
    assert (HS : 0 < 2 ^ (e2 + 104)) by (apply Z.pow_pos_nonneg; lia).
    assert (Hsplit : 2 ^ 104 = 2 ^ (- e2) * 2 ^ (e2 + 104)).
    { rewrite <- Z.pow_add_r by lia. f_equal. lia. }
    rewrite Hsplit, !Z.mul_assoc. split.
    + apply Z.mul_le_mono_nonneg_r; lia.
    + apply Z.mul_lt_mono_pos_r; lia.
Qed.

(** The boost of a reserve that is not negative. *)
Lemma boosted_bounds (r : Z) :
  0 <= r < 2 ^ 1021 ->
  exists r' : Z,
    boosted r = Ok r' /\
    r <= r' /\ 1099 * r <= 1000 * r' + 1000 /\ 1000 * r' <= 1101 * r.
Proof.
  intros [Hr0 Hr]. destruct r as [|p|p]; try lia.
  - exists 0. repeat split; lia.
  - destruct (of_Z_value p Hr) as (m & e & Hof & Hm & He & HA).
    destruct (mul_1_1_value m e Hm He) as (q & e2 & Hmul & He2 & HR1 & HR2).
    unfold boosted, int_mul_float, float_of_int. rewrite Hof.
    cbn [F64.is_finite result_bind mbind result_mbind]. rewrite Hmul.
    destruct (int_of_float (S754_finite false q e2)) as [z|] eqn:Hz; [|discriminate].
    pose proof (int_of_float_floor q e2 z ltac:(lia) Hz) as Hfloor.
    exists z. split; [reflexivity|].
    clear - HA HR1 HR2 Hfloor.
    generalize dependent (Z.pos q * 2 ^ (e2 + 104)). intros R HR1 HR2 Hfloor.
    generalize dependent (Z.pos m * 2 ^ (e + 52)). intros A HA HR1 HR2.
    change (2 ^ 52) with 4503599627370496 in *.
    change (2 ^ 104) with 20282409603651670423947251286016 in *.
    lia.
Qed.

(** X8. A high-volume call on a pool whose reserves are in
    [0, 2 ^ 1021) returns, and each reserve [r] becomes an [r'] with
    [r <= r'], [1.099 * r - 1 <= r'] and [r' <= 1.101 * r]. *)
Theorem high_volume_boost_bounds `{!PyRuntime} (pool : LiquidityPool) (volume_data : DataFrame) :
  F64.geb (avg_volume_of volume_data) threshold = true ->
  0 <= reserve_a pool < 2 ^ 1021 ->
  0 <= reserve_b pool < 2 ^ 1021 ->
  let pool' := pool_after pool volume_data in
  is_Ok (outcome pool volume_data) = true /\
  (reserve_a pool <= reserve_a pool' /\
   1099 * reserve_a pool <= 1000 * reserve_a pool' + 1000 /\
   1000 * reserve_a pool' <= 1101 * reserve_a pool) /\
  (reserve_b pool <= reserve_b pool' /\
   1099 * reserve_b pool <= 1000 * reserve_b pool' + 1000 /\
   1000 * reserve_b pool' <= 1101 * reserve_b pool).
Proof.
  intros Hge Hra Hrb.
  destruct (boosted_bounds (reserve_a pool) Hra) as (ra' & Ha & Hba).
  destruct (boosted_bounds (reserve_b pool) Hrb) as (rb' & Hb & Hbb).
  cbv zeta. unfold pool_after, outcome.
  rewrite (call_high pool volume_data ra' rb' Hge Ha Hb). cbn.
  split; [reflexivity|]. split; assumption.
Qed.

Lemma high_volume_boost_bounds_witness :
  F64.geb (avg_volume_of (H := Reference.runtime) Samples.busy) threshold = true /\
  0 <= reserve_a Samples.fresh < 2 ^ 1021 /\
  0 <= reserve_b Samples.fresh < 2 ^ 1021 /\
  is_Ok (outcome (H := Reference.runtime) Samples.fresh Samples.busy) = true.
Proof.
  assert (Hge : F64.geb (avg_volume_of (H := Reference.runtime) Samples.busy) threshold = true)
    by (vm_compute; reflexivity).
  assert (Hra : 0 <= reserve_a Samples.fresh < 2 ^ 1021) by (vm_compute; split; congruence).
  assert (Hrb : 0 <= reserve_b Samples.fresh < 2 ^ 1021) by (vm_compute; split; congruence).
  split; [exact Hge|]. split; [exact Hra|]. split; [exact Hrb|].
  exact (proj1 (high_volume_boost_bounds (H := Reference.runtime)
                  Samples.fresh Samples.busy Hge Hra Hrb)).
Defined.

(** The fallback frame counts as high volume, for a mean that maps a single
    value to itself. *)
Lemma volume_fallback_high `{!PyRuntime} :
  series_mean [f_5_000_000] = f_5_000_000 ->
  avg_volume_of volume_fallback = f_5_000_000 /\ high_volume volume_fallback.
Proof.
  intros Hmean.
  assert (Havg : avg_volume_of volume_fallback = f_5_000_000).
  { unfold avg_volume_of.
    replace (negb (df_empty volume_fallback) && df_contains "volume" volume_fallback)
      with true by (vm_compute; reflexivity).
    replace (df_getitem volume_fallback "volume") with [f_5_000_000]
      by (vm_compute; reflexivity).
    exact Hmean. }
  split; [exact Havg|]. red. rewrite Havg. vm_compute. reflexivity.
Qed.

(** One high-volume call on a pool whose reserves are in range. *)
Lemma high_step `{!PyRuntime} (pool : LiquidityPool) (volume_data : DataFrame) :
  high_volume volume_data ->
  0 <= reserve_a pool < 2 ^ 1021 ->
  0 <= reserve_b pool < 2 ^ 1021 ->
  let pool' := pool_after pool volume_data in
  is_Ok (outcome pool volume_data) = true /\
  fee_tier pool' = lower_fee (fee_tier pool) /\
  (reserve_a pool <= reserve_a pool' /\
   1099 * reserve_a pool <= 1000 * reserve_a pool' + 1000 /\
   1000 * reserve_a pool' <= 1101 * reserve_a pool) /\
  (reserve_b pool <= reserve_b pool' /\
   1099 * reserve_b pool <= 1000 * reserve_b pool' + 1000 /\
   1000 * reserve_b pool' <= 1101 * reserve_b pool).
Proof.
  intros Hge Hra Hrb. red in Hge.
  destruct (boosted_bounds (reserve_a pool) Hra) as (ra' & Ha & Hba).
  destruct (boosted_bounds (reserve_b pool) Hrb) as (rb' & Hb & Hbb).
  cbv zeta. unfold pool_after, outcome.
  rewrite (call_high pool volume_data ra' rb' Hge Ha Hb). cbn.
  split; [reflexivity|]. split; [reflexivity|]. split; assumption.
Qed.

(** X9. Three calls in a row on high-volume frames, as the loop of [main]
    makes them, from a pool built by [__init__] with reserves in
    [0, 2 ^ 1000): all three return, the fee ends at 0.05, and each reserve
    [r] ends at an [r3] with [r <= r3], [1.327 * r - 4 <= r3] and
    [r3 <= 1.335 * r]. *)
Theorem three_high_volume_calls `{!PyRuntime} (pool_data : gmap string pyval)
    (pool : LiquidityPool) (f1 f2 f3 : DataFrame) :
  __init__ pool_data = Ok pool ->
  0 <= reserve_a pool < 2 ^ 1000 ->
  0 <= reserve_b pool < 2 ^ 1000 ->
  high_volume f1 -> high_volume f2 -> high_volume f3 ->
  exists p1 p2 p3 : LiquidityPool,
    pool_trace pool [f1; f2; f3] = [p1; p2; p3] /\
    is_Ok (outcome p2 f3) = true /\
    fee_tier p3 = f_0_05 /\
    (reserve_a pool <= reserve_a p3 /\
     1327 * reserve_a pool <= 1000 * reserve_a p3 + 4000 /\
     1000 * reserve_a p3 <= 1335 * reserve_a pool) /\
    (reserve_b pool <= reserve_b p3 /\
     1327 * reserve_b pool <= 1000 * reserve_b p3 + 4000 /\
     1000 * reserve_b p3 <= 1335 * reserve_b pool).
Proof.
  intros Hinit Hra Hrb H1 H2 H3. apply init_fee in Hinit as [Hfee _].
  assert (Hbig : 1101 * 1101 * 2 ^ 1000 < 1000 * 1000 * 2 ^ 1021) by (vm_compute; reflexivity).
  assert (Hpos : 0 < 2 ^ 1000) by (vm_compute; reflexivity).
  remember (2 ^ 1000) as T00 eqn:E00. remember (2 ^ 1021) as T21 eqn:E21.
  set (p1 := pool_after pool f1). set (p2 := pool_after p1 f2). set (p3 := pool_after p2 f3).
  destruct (high_step pool f1 H1) as (Hok1 & Hfee1 & Ha1 & Hb1);
    [rewrite <- E21; lia|rewrite <- E21; lia|].
  fold p1 in Hfee1, Ha1, Hb1.
  destruct (high_step p1 f2 H2) as (Hok2 & Hfee2 & Ha2 & Hb2);
    [rewrite <- E21; lia|rewrite <- E21; lia|].
  fold p2 in Hfee2, Ha2, Hb2.
  destruct (high_step p2 f3 H3) as (Hok3 & Hfee3 & Ha3 & Hb3);
    [rewrite <- E21; lia|rewrite <- E21; lia|].
  fold p3 in Hfee3, Ha3, Hb3.
  exists p1, p2, p3. split.
  { cbn [pool_trace]. fold p1. rewrite Hok1. fold p2. rewrite Hok2. fold p3.
    destruct (is_Ok (outcome p2 f3)); reflexivity. }
  split; [exact Hok3|]. split.
  { rewrite Hfee3, Hfee2, Hfee1, Hfee. vm_compute. reflexivity. }
  split; lia.
Qed.

Lemma three_high_volume_calls_witness :
  __init__ (H := Reference.runtime) Samples.snapshot = Ok Samples.fresh /\
  high_volume (H := Reference.runtime) volume_fallback /\
  exists p1 p2 p3 : LiquidityPool,
    pool_trace (H := Reference.runtime) Samples.fresh
      [volume_fallback; volume_fallback; volume_fallback] = [p1; p2; p3] /\
    fee_tier p3 = f_0_05.
Proof.
  assert (Hinit : __init__ (H := Reference.runtime) Samples.snapshot = Ok Samples.fresh)
    by (vm_compute; reflexivity).
  assert (Hhigh : high_volume (H := Reference.runtime) volume_fallback)
    by (vm_compute; reflexivity).
  assert (Hra : 0 <= reserve_a Samples.fresh < 2 ^ 1000) by (vm_compute; split; congruence).
  assert (Hrb : 0 <= reserve_b Samples.fresh < 2 ^ 1000) by (vm_compute; split; congruence).
  split; [exact Hinit|]. split; [exact Hhigh|].
  destruct (three_high_volume_calls (H := Reference.runtime) Samples.snapshot Samples.fresh
              volume_fallback volume_fallback volume_fallback Hinit Hra Hrb Hhigh Hhigh Hhigh)
    as (p1 & p2 & p3 & Htrace & _ & Hfee & _).
  exists p1, p2, p3. split; [exact Htrace|exact Hfee].
Defined.

(** ** A call after a failed volume request *)

(** X10. A call on the frame [fetch_volume_data] returns after a failed
    request, for a mean that maps a single value to itself and a pool with
    reserves in [0, 2 ^ 1021): the call takes the high-volume branch and
    returns, the pool holds the lowered fee and the widened range, and the
    last line printed is the yield estimate [new_fee / 100 * 5000000]. *)
Theorem fallback_frame_call `{!PyRuntime} (pool : LiquidityPool) :
  series_mean [f_5_000_000] = f_5_000_000 ->
  0 <= reserve_a pool < 2 ^ 1021 ->
  0 <= reserve_b pool < 2 ^ 1021 ->
  outcome pool volume_fallback = Ok (fee_down pool, range_wide pool) /\
  fee_tier (pool_after pool volume_fallback) = fee_down pool /\
  price_range (pool_after pool volume_fallback) = range_wide pool /\
  last (printed_by pool volume_fallback) =
    Some (YieldLine (F64.mul (F64.div (fee_down pool) f_100) f_5_000_000)).
Proof.
  intros Hmean Hra Hrb.
  destruct (volume_fallback_high Hmean) as [Havg Hhigh]. red in Hhigh.
  destruct (boosted_bounds (reserve_a pool) Hra) as (ra' & Ha & _).
  destruct (boosted_bounds (reserve_b pool) Hrb) as (rb' & Hb & _).
  unfold outcome, pool_after, printed_by.
  rewrite (call_high pool volume_fallback ra' rb' Hhigh Ha Hb).
  unfold yield_of. rewrite Havg. repeat split.
Qed.

Lemma fallback_frame_call_witness :
  series_mean (PyRuntime := Reference.runtime) [f_5_000_000] = f_5_000_000 /\
  0 <= reserve_a Samples.fresh < 2 ^ 1021 /\
  0 <= reserve_b Samples.fresh < 2 ^ 1021 /\
  outcome (H := Reference.runtime) Samples.fresh volume_fallback =
    Ok (fee_down Samples.fresh, range_wide Samples.fresh).
Proof.
  assert (Hmean : series_mean (PyRuntime := Reference.runtime) [f_5_000_000] = f_5_000_000)
    by (vm_compute; reflexivity).
  assert (Hra : 0 <= reserve_a Samples.fresh < 2 ^ 1021) by (vm_compute; split; congruence).
  assert (Hrb : 0 <= reserve_b Samples.fresh < 2 ^ 1021) by (vm_compute; split; congruence).
  split; [exact Hmean|]. split; [exact Hra|]. split; [exact Hrb|].
  exact (proj1 (fallback_frame_call (H := Reference.runtime) Samples.fresh Hmean Hra Hrb)).
Defined.

(** ** Runs without high volume *)

(** X11. In a run of calls on frames whose average volume is not at least
    the threshold, no call raises (the run yields one pool per frame) and
    every pool of the run holds the reserves the run started with. *)
Theorem quiet_run_keeps_reserves `{!PyRuntime}
    (pool : LiquidityPool) (frames : list DataFrame) :
  Forall not_high_volume frames ->
  length (pool_trace pool frames) = length frames /\
  Forall (fun p => reserve_a p = reserve_a pool /\ reserve_b p = reserve_b pool)
    (pool_trace pool frames).
Proof.
  revert pool. induction frames as [|volume_data rest IH]; intros pool Hlow.
  - split; [reflexivity|constructor].
  - inversion Hlow as [|? ? Hhead Htail]; subst. red in Hhead.
    cbn [pool_trace]. unfold outcome, pool_after.
    rewrite (call_low pool volume_data Hhead). cbn [fst snd the_pool is_Ok].
    destruct (IH (set_price_range (range_narrow pool) (set_fee_tier (fee_up pool) pool)) Htail)
      as [Hlen Hall].
    split; [cbn [length]; rewrite Hlen; reflexivity|].
    constructor; [split; reflexivity|exact Hall].
Qed.

Lemma quiet_run_keeps_reserves_witness :
  Forall (not_high_volume (H := Reference.runtime)) [Samples.quiet; Samples.quiet] /\
  length (pool_trace (H := Reference.runtime) Samples.fresh [Samples.quiet; Samples.quiet])
    = 2%nat.
Proof.
  assert (Hlow : Forall (not_high_volume (H := Reference.runtime))
                   [Samples.quiet; Samples.quiet]) by (repeat constructor).
  split; [exact Hlow|].
  exact (proj1 (quiet_run_keeps_reserves (H := Reference.runtime) Samples.fresh _ Hlow)).
Defined.

(** ** The pool [main] selects *)

Lemma py_eq_str_true (v : pyval) (s : string) :
  py_eq_str v s = true <-> v = PyStr s.
Proof.
  destruct v as [s'|l]; simpl; [|split; discriminate].
  rewrite String.eqb_eq. split; congruence.
Qed.

Lemma is_near_usdt_true (pool : gmap string pyval) :
  is_near_usdt pool = Ok true <-> has_tokens pool.
Proof.
  unfold is_near_usdt, has_tokens, getitem. split.
  - destruct (pool !! "token_a") as [a|]; [|discriminate]. cbn.
    destruct (py_eq_str a "wrap.near") eqn:Ha; [|discriminate].
    apply py_eq_str_true in Ha as ->.
    destruct (pool !! "token_b") as [b|]; [|discriminate]. cbn.
    intros [= Hb]. apply py_eq_str_true in Hb as ->. split; reflexivity.
  - intros [-> ->]. reflexivity.
Qed.

(** The selection, read back from its result. *)
Lemma near_usdt_pool_found (pools : list (gmap string pyval)) (pool : gmap string pyval) :
  near_usdt_pool pools = Ok (Some pool) ->
  exists before after : list (gmap string pyval),
    pools = before ++ pool :: after /\
    has_tokens pool /\
    Forall (fun p => is_near_usdt p = Ok false) before.
Proof.
  induction pools as [|p rest IH]; [discriminate|]. cbn [near_usdt_pool].
  destruct (is_near_usdt p) as [[|]|] eqn:Hp; cbn; [| |discriminate].
  - intros [= <-]. exists [], rest. split; [reflexivity|].
    split; [apply is_near_usdt_true, Hp|constructor].
  - intros Hrest. destruct (IH Hrest) as (before & after & -> & Htok & Hbefore).
    exists (p :: before), after. split; [reflexivity|]. split; [exact Htok|].
    constructor; assumption.
Qed.

Lemma near_usdt_pool_app (before after : list (gmap string pyval)) (pool : gmap string pyval) :
  Forall (fun p => is_near_usdt p = Ok false) before ->
  near_usdt_pool (before ++ pool :: after) =
    (hit ← is_near_usdt pool; if (hit : bool) then Ok (Some pool) else near_usdt_pool after).
Proof.
  induction before as [|p rest IH]; intros Hbefore; [reflexivity|].
  inversion Hbefore as [|? ? Hp Hrest]; subst.
  cbn [app near_usdt_pool]. rewrite Hp. cbn. apply IH, Hrest.
Qed.

(** X12. When [main] comes to build a pool object, the listing has a first
    record whose [token_a] is ["wrap.near"] and whose [token_b] is
    ["usdt.tether-token.near"], every record before it was tested without
    error and failed the test, and the pool object is the one [__init__]
    builds from that record. *)
Theorem main_pool_selected `{!PyRuntime}
    (pools : option (list (gmap string pyval))) (pool : LiquidityPool) :
  main_pool pools = Ok (Some pool) ->
  exists (before after : list (gmap string pyval)) (pool_data : gmap string pyval),
    pools = Some (before ++ pool_data :: after) /\
    has_tokens pool_data /\
    Forall (fun p => is_near_usdt p = Ok false) before /\
    __init__ pool_data = Ok pool.
Proof.
  unfold main_pool. destruct pools as [[|p rest]|]; try discriminate.
  destruct (near_usdt_pool (p :: rest)) as [[pool_data|]|] eqn:Hfound; cbn; try discriminate.
  destruct (bool_decide (pool_data = ∅)); [discriminate|].
  destruct (__init__ pool_data) as [built|] eqn:Hinit; cbn; [|discriminate].
  intros [= <-].
  destruct (near_usdt_pool_found _ _ Hfound) as (before & after & Hsplit & Htok & Hbefore).
  exists before, after, pool_data. rewrite Hsplit.
  split; [reflexivity|]. split; [exact Htok|]. split; [exact Hbefore|exact Hinit].
Qed.

(** X13. If every record before [pool_data] fails the token test without
    error and [pool_data] passes it, [main] builds its pool from
    [pool_data], or raises what [__init__] raises on it, whatever the
    records after it are: they are never looked at. *)
Theorem main_pool_first_match `{!PyRuntime}
    (before after : list (gmap string pyval)) (pool_data : gmap string pyval) :
  Forall (fun p => is_near_usdt p = Ok false) before ->
  has_tokens pool_data ->
  main_pool (Some (before ++ pool_data :: after)) =
    (pool ← __init__ pool_data; mret (Some pool)).
Proof.
  intros Hbefore Htok. unfold main_pool.
  destruct (before ++ pool_data :: after) as [|p rest] eqn:Hlist.
  { destruct before; discriminate. }
  rewrite <- Hlist. rewrite (near_usdt_pool_app before after pool_data Hbefore).
  rewrite (proj2 (is_near_usdt_true pool_data) Htok). cbn.
  rewrite bool_decide_eq_false_2; [reflexivity|].
  intros ->. destruct Htok as [Ha _]. rewrite lookup_empty in Ha. discriminate.
Qed.

(** X14. If every record before [bad] fails the token test without error
    and [bad] has no key [token_a], the selection in [main] raises
    [KeyError], also when a matching record comes later in the listing. *)
Theorem main_pool_missing_token `{!PyRuntime}
    (before after : list (gmap string pyval)) (bad : gmap string pyval) :
  Forall (fun p => is_near_usdt p = Ok false) before ->
  bad !! "token_a" = None ->
  main_pool (Some (before ++ bad :: after)) = Raise KeyError.
Proof.
  intros Hbefore Hbad. unfold main_pool.
  destruct (before ++ bad :: after) as [|p rest] eqn:Hlist.
  { destruct before; discriminate. }
  rewrite <- Hlist. rewrite (near_usdt_pool_app before after bad Hbefore).
  unfold is_near_usdt, getitem. rewrite Hbad. reflexivity.
Qed.

Lemma main_pool_selected_witness :
  main_pool (H := Reference.runtime) (Some [other_pair; Samples.snapshot; unnamed])
    = Ok (Some Samples.fresh) /\
  exists (before after : list (gmap string pyval)) (pool_data : gmap string pyval),
    Some [other_pair; Samples.snapshot; unnamed] = Some (before ++ pool_data :: after) /\
    has_tokens pool_data /\
    Forall (fun p => is_near_usdt p = Ok false) before /\
    __init__ (H := Reference.runtime) pool_data = Ok Samples.fresh.
Proof.
  assert (Hrun : main_pool (H := Reference.runtime)
                   (Some [other_pair; Samples.snapshot; unnamed]) = Ok (Some Samples.fresh))
    by (vm_compute; reflexivity).
  split; [exact Hrun|].
  exact (main_pool_selected (H := Reference.runtime) _ _ Hrun).
Defined.

Lemma main_pool_first_match_witness :
  Forall (fun p => is_near_usdt p = Ok false) [other_pair] /\
  has_tokens Samples.snapshot /\
  main_pool (H := Reference.runtime) (Some ([other_pair] ++ Samples.snapshot :: [unnamed]))
    = (pool ← __init__ (H := Reference.runtime) Samples.snapshot; mret (Some pool)).
Proof.
  assert (Hbefore : Forall (fun p => is_near_usdt p = Ok false) [other_pair])
    by (constructor; [vm_compute; reflexivity|constructor]).
  assert (Htok : has_tokens Samples.snapshot) by (split; vm_compute; reflexivity).
  split; [exact Hbefore|]. split; [exact Htok|].
  exact (main_pool_first_match (H := Reference.runtime) [other_pair] [unnamed]
           Samples.snapshot Hbefore Htok).
Defined.

Lemma main_pool_missing_token_witness :
  Forall (fun p => is_near_usdt p = Ok false) [other_pair] /\
  unnamed !! "token_a" = None /\
  main_pool (H := Reference.runtime) (Some ([other_pair] ++ unnamed :: [Samples.snapshot]))
    = Raise KeyError.
Proof.
  assert (Hbefore : Forall (fun p => is_near_usdt p = Ok false) [other_pair])
    by (constructor; [vm_compute; reflexivity|constructor]).
  assert (Hbad : unnamed !! "token_a" = None) by (vm_compute; reflexivity).
  split; [exact Hbefore|]. split; [exact Hbad|].
  exact (main_pool_missing_token (H := Reference.runtime) [other_pair] [Samples.snapshot]
           unnamed Hbefore Hbad).
Defined.

(** ** Records that lack a field *)

(** A record without one of the fields [__init__] reads. *)
Ltac raise_here Hnot :=
  eexists; split; [reflexivity|first [intros _; reflexivity|intros Hin; destruct (Hnot Hin)]].

(** X15. [__init__] raises on a record that lacks one of the six keys it
    reads; when the missing key is [token_a], [token_b] or [reserve_a] the
    exception is [KeyError]. *)
Theorem init_requires_keys `{!PyRuntime} (pool_data : gmap string pyval) (key : string) :
  key ∈ init_keys ->
  pool_data !! key = None ->
  exists e : exn,
    __init__ pool_data = Raise e /\
    (key ∈ ["token_a"; "token_b"; "reserve_a"]%string -> e = KeyError).
Proof.
  unfold init_keys. intros Hkey Hnone.
  apply list_elem_of_In in Hkey. simpl in Hkey.
  assert (Hnot : (key = "reserve_b" \/ key = "spot_price" \/ key = "liquidities")%string ->
                 key ∈ ["token_a"; "token_b"; "reserve_a"]%string -> False).
  { intros Hlate Hin. apply list_elem_of_In in Hin. simpl in Hin.
    destruct Hlate as [-> | [-> | ->]]; intuition discriminate. }
  unfold __init__, getitem.
  destruct Hkey as [<- | [<- | [<- | [<- | [<- | [<- | []]]]]]].
  - rewrite Hnone. cbn. raise_here Hnot.
  - destruct (pool_data !! "token_a"); cbn; [|raise_here Hnot].
    rewrite Hnone. cbn. raise_here Hnot.
  - destruct (pool_data !! "token_a"); cbn; [|raise_here Hnot].
    destruct (pool_data !! "token_b"); cbn; [|raise_here Hnot].
    rewrite Hnone. cbn. raise_here Hnot.
  - specialize (Hnot (or_introl eq_refl)).
    destruct (pool_data !! "token_a"); cbn; [|raise_here Hnot].
    destruct (pool_data !! "token_b"); cbn; [|raise_here Hnot].
    destruct (pool_data !! "reserve_a") as [ra|]; cbn; [|raise_here Hnot].
    destruct (py_int ra); cbn; [|raise_here Hnot].
    rewrite Hnone. cbn. raise_here Hnot.
  - specialize (Hnot (or_intror (or_introl eq_refl))).
    destruct (pool_data !! "token_a"); cbn; [|raise_here Hnot].
    destruct (pool_data !! "token_b"); cbn; [|raise_here Hnot].
    destruct (pool_data !! "reserve_a") as [ra|]; cbn; [|raise_here Hnot].
    destruct (py_int ra); cbn; [|raise_here Hnot].
    destruct (pool_data !! "reserve_b") as [rb|]; cbn; [|raise_here Hnot].
    destruct (py_int rb); cbn; [|raise_here Hnot].
    rewrite Hnone. cbn. raise_here Hnot.
  - specialize (Hnot (or_intror (or_intror eq_refl))).
    destruct (pool_data !! "token_a"); cbn; [|raise_here Hnot].
    destruct (pool_data !! "token_b"); cbn; [|raise_here Hnot].
    destruct (pool_data !! "reserve_a") as [ra|]; cbn; [|raise_here Hnot].
    destruct (py_int ra); cbn; [|raise_here Hnot].
    destruct (pool_data !! "reserve_b") as [rb|]; cbn; [|raise_here Hnot].
    destruct (py_int rb); cbn; [|raise_here Hnot].
    destruct (pool_data !! "spot_price") as [sp|]; cbn; [|raise_here Hnot].
    destruct (py_float sp); cbn; [|raise_here Hnot].
    rewrite Hnone. cbn. raise_here Hnot.
Qed.

Lemma init_requires_keys_witness :
  "token_a"%string ∈ init_keys /\
  unnamed !! "token_a" = None /\
  __init__ (H := Reference.runtime) unnamed = Raise KeyError.
Proof.
  assert (Hkey : "token_a"%string ∈ init_keys) by (apply list_elem_of_here).
  assert (Hnone : unnamed !! "token_a" = None) by (vm_compute; reflexivity).
  split; [exact Hkey|]. split; [exact Hnone|].
  destruct (init_requires_keys (H := Reference.runtime) unnamed "token_a" Hkey Hnone)
    as (e & Hraise & He).
  rewrite Hraise. f_equal. apply He, list_elem_of_here.
Defined.
